(** * Automated Receipt Processing System: the Lambda pipeline

    A shallow embedding of [lambda.py] (the S3-triggered handler that runs
    Textract's AnalyzeExpense on an uploaded receipt, stores the extracted
    record in DynamoDB and sends an SES notification), followed by the
    properties of the pipeline.

    Python values are the JSON-like values the handler receives and passes
    around.  Exceptions are an explicit sum; the external calls, the prints,
    the UUID draws and the clock reads are the effects of a small monad. *)

From Stdlib Require Import String Ascii List ZArith Bool Lia Arith.
From Stdlib Require Import Floats.SpecFloat DecimalString DecimalNat.
Import ListNotations.
Local Open Scope string_scope.
Local Open Scope list_scope.
Set Warnings "-register-all".

(** ** Python values *)

(** A dict keeps its insertion order and iterating it yields its keys in
    that order, hence the association list. *)
Inductive pyval : Type :=
| PNone
| PBool (b : bool)
| PInt (n : Z)
| PFloat (f : spec_float)
| PStr (s : string)
| PList (xs : list pyval)
| PDict (kvs : list (string * pyval)).

Definition pydict : Type := list (string * pyval).

Module Dict.

(** [d.get(k)]: the value bound to [k], if any. *)
Fixpoint get (k : string) (d : pydict) : option pyval :=
  match d with
  | [] => None
  | (k', v) :: d' => if String.eqb k k' then Some v else get k d'
  end.

(** [k in d]. *)
Definition mem (k : string) (d : pydict) : bool :=
  match get k d with Some _ => true | None => false end.

(** [d[k] = v]: overwrite in place, or append a new binding. *)
Fixpoint set (k : string) (v : pyval) (d : pydict) : pydict :=
  match d with
  | [] => [(k, v)]
  | (k', v') :: d' =>
      if String.eqb k k' then (k', v) :: d' else (k', v') :: set k v d'
  end.

(** [d.get(k, default)]. *)
Definition get_default (k : string) (default : pyval) (d : pydict) : pyval :=
  match get k d with Some v => v | None => default end.

Definition keys (d : pydict) : list string := map fst d.

End Dict.

(** ** Exceptions *)

(** Every exception of the model is an instance of Python's [Exception]:
    the ones the interpreter raises on a bad subscript, membership test,
    iteration or attribute access, the ones an AWS client raises, and the
    plain [Exception(msg)] the handler raises itself. *)
Inductive exn : Type :=
| KeyError (key : pyval)
| IndexError
| TypeError
| AttributeError
| ClientError (message : string)
| Exception_ (message : string).

Definition Err (A : Type) : Type := (exn + A)%type.

Definition err_bind {A B} (e : Err A) (k : A -> Err B) : Err B :=
  match e with
  | inl x => inl x
  | inr a => k a
  end.

Notation "'let?' x ':=' e 'in' k" :=
  (err_bind e (fun x => k))
  (at level 10, x name, e at level 100, k at level 200).

(** [for x in xs: s = body(x, s)], stopping at the first exception. *)
Fixpoint for_each {A S : Type} (xs : list A) (body : A -> S -> Err S) (s : S)
  : Err S :=
  match xs with
  | [] => inr s
  | x :: xs' => let? s' := body x s in for_each xs' body s'
  end.

(** ** The Python operations the handler uses *)

(** Truth value of an object. *)
Definition py_truthy (v : pyval) : bool :=
  match v with
  | PNone => false
  | PBool b => b
  | PInt n => negb (n =? 0)%Z
  | PFloat (S754_zero _) => false
  | PFloat _ => true
  | PStr s => negb (String.eqb s "")
  | PList xs => match xs with [] => false | _ => true end
  | PDict kvs => match kvs with [] => false | _ => true end
  end.

(** [v == s] for a string literal [s]. *)
Definition py_eq_str (v : pyval) (s : string) : bool :=
  match v with
  | PStr s' => String.eqb s' s
  | _ => false
  end.

(** [k in s] on strings. *)
Fixpoint substringb (k s : string) : bool :=
  String.prefix k s ||
  match s with
  | EmptyString => false
  | String _ s' => substringb k s'
  end.

(** Strings hold UTF-8; a character is a lead byte with the continuation
    bytes (0x80 to 0xBF) that follow it. *)
Definition is_continuation (c : ascii) : bool :=
  let n := nat_of_ascii c in ((128 <=? n) && (n <? 192))%nat.

Definition starts_with_continuation (s : string) : bool :=
  match s with
  | EmptyString => false
  | String c _ => is_continuation c
  end.

Fixpoint chars_of (s : string) : list string :=
  match s with
  | EmptyString => []
  | String c rest =>
      let chs := chars_of rest in
      if starts_with_continuation rest then
        match chs with
        | ch :: chs' => String c ch :: chs'
        | [] => [String c EmptyString]
        end
      else String c EmptyString :: chs
  end.

(** [v[k]] with a string key. *)
Definition py_getitem (v : pyval) (k : string) : Err pyval :=
  match v with
  | PDict d =>
      match Dict.get k d with
      | Some x => inr x
      | None => inl (KeyError (PStr k))
      end
  | _ => inl TypeError
  end.

(** [v[0]]. *)
Definition py_getitem0 (v : pyval) : Err pyval :=
  match v with
  | PList [] => inl IndexError
  | PList (x :: _) => inr x
  | PStr s =>
      match chars_of s with
      | [] => inl IndexError
      | ch :: _ => inr (PStr ch)
      end
  | PDict _ => inl (KeyError (PInt 0))
  | _ => inl TypeError
  end.

(** [k in v] with a string [k]. *)
Definition py_contains (k : string) (v : pyval) : Err bool :=
  match v with
  | PDict d => inr (Dict.mem k d)
  | PList xs => inr (existsb (fun x => py_eq_str x k) xs)
  | PStr s => inr (substringb k s)
  | _ => inl TypeError
  end.

(** The elements [for x in v] visits. *)
Definition py_iter (v : pyval) : Err (list pyval) :=
  match v with
  | PList xs => inr xs
  | PDict d => inr (map PStr (Dict.keys d))
  | PStr s => inr (map PStr (chars_of s))
  | _ => inl TypeError
  end.

(** [v.get(k, default)]: only a dict has the method. *)
Definition py_get (v : pyval) (k : string) (default : pyval) : Err pyval :=
  match v with
  | PDict d => inr (Dict.get_default k default d)
  | _ => inl AttributeError
  end.

(** ** Records of the pipeline *)

(** The [receipt_data] dict: its six keys are fixed when it is built and
    only their values change. *)
Record receipt_data : Type := mkReceipt {
  receipt_id : string;
  date : pyval;
  vendor : pyval;
  total : pyval;
  items : list pydict;
  s3_path : string
}.

Definition set_total (rd : receipt_data) (v : pyval) : receipt_data :=
  mkReceipt (receipt_id rd) (date rd) (vendor rd) v (items rd) (s3_path rd).

Definition set_date (rd : receipt_data) (v : pyval) : receipt_data :=
  mkReceipt (receipt_id rd) v (vendor rd) (total rd) (items rd) (s3_path rd).

Definition set_vendor (rd : receipt_data) (v : pyval) : receipt_data :=
  mkReceipt (receipt_id rd) (date rd) v (total rd) (items rd) (s3_path rd).

(** [receipt_data['items'].append(item)]. *)
Definition append_item (rd : receipt_data) (item : pydict) : receipt_data :=
  mkReceipt (receipt_id rd) (date rd) (vendor rd) (total rd)
            (items rd ++ [item]) (s3_path rd).

(** The [db_item] dict handed to [table.put_item]. *)
Record db_item : Type := mkDbItem {
  db_receipt_id : string;
  db_date : pyval;
  db_vendor : pyval;
  db_total : pyval;
  db_items : list pydict;
  db_s3_path : string;
  db_processed_timestamp : string
}.

(** The dict [lambda_handler] returns. *)
Record response : Type := mkResponse {
  statusCode : Z;
  body : string
}.

(** [receipt_data] as the value [json.dumps] is given. *)
Definition receipt_to_py (rd : receipt_data) : pyval :=
  PDict [("receipt_id", PStr (receipt_id rd));
         ("date", date rd);
         ("vendor", vendor rd);
         ("total", total rd);
         ("items", PList (map PDict (items rd)));
         ("s3_path", PStr (s3_path rd))].

(** ** The field mapper: the loops of [process_receipt_with_textract] *)

(** [field.get('Type', {}).get('Text', '')] and
    [field.get('ValueDetection', {}).get('Text', '')]. *)
Definition field_type_and_value (field : pyval) : Err (pyval * pyval) :=
  let? ty := py_get field "Type" (PDict []) in
  let? field_type := py_get ty "Text" (PStr "") in
  let? vd := py_get field "ValueDetection" (PDict []) in
  let? value := py_get vd "Text" (PStr "") in
  inr (field_type, value).

(** Body of [for field in expense_doc['SummaryFields']]. *)
Definition summary_field_step (field : pyval) (rd : receipt_data)
  : Err receipt_data :=
  let? tv := field_type_and_value field in
  let field_type := fst tv in
  let value := snd tv in
  if py_eq_str field_type "TOTAL" then inr (set_total rd value)
  else if py_eq_str field_type "INVOICE_RECEIPT_DATE" then inr (set_date rd value)
  else if py_eq_str field_type "VENDOR_NAME" then inr (set_vendor rd value)
  else inr rd.

(** Body of [for field in line_item.get('LineItemExpenseFields', [])]. *)
Definition line_item_field_step (field : pyval) (item : pydict) : Err pydict :=
  let? tv := field_type_and_value field in
  let field_type := fst tv in
  let value := snd tv in
  if py_eq_str field_type "ITEM" then inr (Dict.set "name" value item)
  else if py_eq_str field_type "PRICE" then inr (Dict.set "price" value item)
  else if py_eq_str field_type "QUANTITY" then inr (Dict.set "quantity" value item)
  else inr item.

(** The [item] dict a line item yields, before the test on its name. *)
Definition build_item (line_item : pyval) : Err pydict :=
  let? fields := py_get line_item "LineItemExpenseFields" (PList []) in
  let? fs := py_iter fields in
  for_each fs line_item_field_step [].

(** Body of [for line_item in group['LineItems']]. *)
Definition line_item_step (line_item : pyval) (rd : receipt_data)
  : Err receipt_data :=
  let? item := build_item line_item in
  if Dict.mem "name" item then inr (append_item rd item) else inr rd.

(** Body of [for group in expense_doc['LineItemGroups']]. *)
Definition group_step (group : pyval) (rd : receipt_data) : Err receipt_data :=
  let? has_items := py_contains "LineItems" group in
  if has_items then
    let? line_items := py_getitem group "LineItems" in
    let? ls := py_iter line_items in
    for_each ls line_item_step rd
  else inr rd.

(** [if 'SummaryFields' in expense_doc: ...]. *)
Definition process_summary_fields (expense_doc : pyval) (rd : receipt_data)
  : Err receipt_data :=
  let? has_summary := py_contains "SummaryFields" expense_doc in
  if has_summary then
    let? fields := py_getitem expense_doc "SummaryFields" in
    let? fs := py_iter fields in
    for_each fs summary_field_step rd
  else inr rd.

(** [if 'LineItemGroups' in expense_doc: ...]. *)
Definition process_line_items (expense_doc : pyval) (rd : receipt_data)
  : Err receipt_data :=
  let? has_groups := py_contains "LineItemGroups" expense_doc in
  if has_groups then
    let? groups := py_getitem expense_doc "LineItemGroups" in
    let? gs := py_iter groups in
    for_each gs group_step rd
  else inr rd.

(** ['ExpenseDocuments' in response and response['ExpenseDocuments']],
    as a truth value. *)
Definition has_expense_documents (resp : pyval) : Err bool :=
  let? present := py_contains "ExpenseDocuments" resp in
  if present then
    let? docs := py_getitem resp "ExpenseDocuments" in
    inr (py_truthy docs)
  else inr false.

(** The part of [process_receipt_with_textract] that fills the record
    from the Textract response. *)
Definition extract_receipt (resp : pyval) (rd : receipt_data)
  : Err receipt_data :=
  let? go := has_expense_documents resp in
  if go then
    let? docs := py_getitem resp "ExpenseDocuments" in
    let? expense_doc := py_getitem0 docs in
    let? rd1 := process_summary_fields expense_doc rd in
    process_line_items expense_doc rd1
  else inr rd.

(** ** Effects *)

(** What an invocation does to the outside world, in order: the lines it
    prints and the calls it makes to the AWS clients. *)
Inductive event : Type :=
| Printed (line : string)
| HeadObject (bucket : pyval) (key : string)
| AnalyzeExpense (bucket : pyval) (key : string)
| PutItem (table : string) (item : db_item)
| SendEmail (source : string) (to_addresses : list string)
            (subject html : string).

(** How many UUIDs have been drawn and how often the clock has been read. *)
Record ticks : Type := mkTicks {
  uuid_draws : nat;
  clock_reads : nat
}.

Record run (A : Type) : Type := mkRun {
  result : Err A;
  events : list event;
  after : ticks
}.
Arguments mkRun {A} _ _ _.
Arguments result {A} _.
Arguments events {A} _.
Arguments after {A} _.

Definition M (A : Type) : Type := ticks -> run A.

Definition ret {A} (a : A) : M A := fun t => mkRun (inr a) [] t.

Definition raise {A} (e : exn) : M A := fun t => mkRun (inl e) [] t.

Definition bind {A B} (m : M A) (k : A -> M B) : M B :=
  fun t =>
    match m t with
    | mkRun (inl e) evs t' => mkRun (inl e) evs t'
    | mkRun (inr a) evs t' =>
        match k a t' with
        | mkRun r evs' t'' => mkRun r (evs ++ evs') t''
        end
    end.

(** [try: m  except Exception as e: handler(e)]. *)
Definition try_except {A} (m : M A) (handler : exn -> M A) : M A :=
  fun t =>
    match m t with
    | mkRun (inr a) evs t' => mkRun (inr a) evs t'
    | mkRun (inl e) evs t' =>
        match handler e t' with
        | mkRun r evs' t'' => mkRun r (evs ++ evs') t''
        end
    end.

Definition lift {A} (e : Err A) : M A := fun t => mkRun e [] t.

Definition emit (ev : event) : M unit := fun t => mkRun (inr tt) [ev] t.

Definition print (line : string) : M unit := emit (Printed line).

Declare Scope io_scope.
Delimit Scope io_scope with io.
Notation "x <- m ;; k" := (bind m (fun x => k))
  (at level 61, m at next level, right associativity) : io_scope.
Notation "m ;; k" := (bind m (fun _ => k))
  (at level 61, right associativity) : io_scope.

Infix "+++" := String.append (right associativity, at level 60).

(** ** The interpreter's library and the AWS services *)

(** A reading of the clock; only its two renderings are used. *)
Definition datetime : Type := Z.

(** The library functions the handler calls, none of them part of the
    repository. *)
Record Runtime : Type := mkRuntime {
  (** [urllib.parse.unquote_plus] on a [str] *)
  rt_unquote_plus : string -> string;
  (** [json.dumps] *)
  rt_json_dumps : pyval -> string;
  (** [str(v)] of a value that is not a [str] *)
  rt_repr : pyval -> string;
  (** [str(e)] of an exception the interpreter raised *)
  rt_message : exn -> string;
  (** [str(uuid.uuid4())], by the number of earlier draws *)
  rt_uuid4 : nat -> string;
  (** [datetime.now()], by the number of earlier reads *)
  rt_now : nat -> datetime;
  (** [strftime('%Y-%m-%d')] *)
  rt_strftime_Ymd : datetime -> string;
  (** [isoformat()] *)
  rt_isoformat : datetime -> string
}.

(** The process environment and the behaviour of the four AWS calls:
    [None] when a call returns, [Some e] when it raises [e]. *)
Record Services : Type := mkServices {
  environ : string -> option string;
  head_object : pyval -> string -> option exn;
  analyze_expense : pyval -> string -> Err pyval;
  put_item : string -> db_item -> option exn;
  send_email : string -> list string -> string -> string -> option exn
}.

Definition nl : string := String (ascii_of_nat 10) EmptyString.

Section Pipeline.

Variable rt : Runtime.
Variable aws : Services.

Local Open Scope io_scope.

(** [str(v)], as an f-string renders a value. *)
Definition py_str (v : pyval) : string :=
  match v with
  | PStr s => s
  | _ => rt_repr rt v
  end.

(** [str(e)]. *)
Definition str_exn (e : exn) : string :=
  match e with
  | ClientError m => m
  | Exception_ m => m
  | KeyError k => rt_repr rt k
  | _ => rt_message rt e
  end.

(** [os.environ.get(name, default)]. *)
Definition environ_get (name default : string) : string :=
  match environ aws name with
  | Some v => v
  | None => default
  end.

Definition DYNAMODB_TABLE : string := environ_get "DYNAMODB_TABLE" "Table_name".
Definition SES_SENDER_EMAIL : string := environ_get "SES_SENDER_EMAIL" "sender_email".
Definition SES_RECIPIENT_EMAIL : string :=
  environ_get "SES_RECIPIENT_EMAIL" "receiver_email".

Definition of_outcome (o : option exn) : Err unit :=
  match o with
  | Some e => inl e
  | None => inr tt
  end.

(** [s3.head_object(Bucket=bucket, Key=key)]. *)
Definition s3_head_object (bucket : pyval) (key : string) : M unit :=
  fun t => mkRun (of_outcome (head_object aws bucket key))
                 [HeadObject bucket key] t.

(** [textract.analyze_expense(Document={'S3Object': ...})]. *)
Definition textract_analyze_expense (bucket : pyval) (key : string)
  : M pyval :=
  fun t => mkRun (analyze_expense aws bucket key)
                 [AnalyzeExpense bucket key] t.

(** [dynamodb.Table(table).put_item(Item=item)]. *)
Definition dynamodb_put_item (table : string) (item : db_item) : M unit :=
  fun t => mkRun (of_outcome (put_item aws table item)) [PutItem table item] t.

(** [ses.send_email(Source=..., Destination=..., Message=...)]. *)
Definition ses_send_email (source : string) (to_addresses : list string)
           (subject html : string) : M unit :=
  fun t => mkRun (of_outcome (send_email aws source to_addresses subject html))
                 [SendEmail source to_addresses subject html] t.

(** [str(uuid.uuid4())]. *)
Definition uuid4 : M string :=
  fun t => mkRun (inr (rt_uuid4 rt (uuid_draws t))) []
                 (mkTicks (S (uuid_draws t)) (clock_reads t)).

(** [datetime.now()]. *)
Definition datetime_now : M datetime :=
  fun t => mkRun (inr (rt_now rt (clock_reads t))) []
                 (mkTicks (uuid_draws t) (S (clock_reads t))).

(** [urllib.parse.unquote_plus(v)]: it starts with [v.replace]. *)
Definition unquote_plus (v : pyval) : Err string :=
  match v with
  | PStr s => inr (rt_unquote_plus rt s)
  | _ => inl AttributeError
  end.

(** [event['Records'][0]['s3']['bucket']['name']]. *)
Definition event_bucket (event : pyval) : Err pyval :=
  let? records := py_getitem event "Records" in
  let? record := py_getitem0 records in
  let? s3 := py_getitem record "s3" in
  let? bucket := py_getitem s3 "bucket" in
  py_getitem bucket "name".

(** [event['Records'][0]['s3']['object']['key']]. *)
Definition event_key (event : pyval) : Err pyval :=
  let? records := py_getitem event "Records" in
  let? record := py_getitem0 records in
  let? s3 := py_getitem record "s3" in
  let? object := py_getitem s3 "object" in
  py_getitem object "key".

(** *** process_receipt_with_textract *)
Definition process_receipt_with_textract (bucket : pyval) (key : string)
  : M receipt_data :=
  resp <- try_except
            (print ("Calling Textract analyze_expense for "
                      +++ py_str bucket +++ "/" +++ key) ;;
             r <- textract_analyze_expense bucket key ;;
             print "Textract analyze_expense call successful" ;;
             ret r)
            (fun e =>
               print ("Textract analyze_expense call failed: " +++ str_exn e) ;;
               raise e) ;;
  rid <- uuid4 ;;
  today <- datetime_now ;;
  let rd0 := mkReceipt rid
                       (PStr (rt_strftime_Ymd rt today))
                       (PStr "Unknown")
                       (PStr "0.00")
                       []
                       ("s3://" +++ py_str bucket +++ "/" +++ key) in
  rd <- lift (extract_receipt resp rd0) ;;
  print ("Extracted receipt data: " +++ rt_json_dumps rt (receipt_to_py rd)) ;;
  ret rd.

(** *** store_receipt_in_dynamodb *)

(** The dict appended to [items_for_db] for one item. *)
Definition item_for_db (item : pydict) : pydict :=
  [("name", Dict.get_default "name" (PStr "Unknown Item") item);
   ("price", Dict.get_default "price" (PStr "0.00") item);
   ("quantity", Dict.get_default "quantity" (PStr "1") item)].

(** The [db_item] literal: [receipt_id] is the partition key and [date]
    the sort key of the table. *)
Definition build_db_item (rd : receipt_data) (now : datetime) : db_item :=
  mkDbItem (receipt_id rd)
           (date rd)
           (vendor rd)
           (total rd)
           (map item_for_db (items rd))
           (s3_path rd)
           (rt_isoformat rt now).

Definition store_receipt_in_dynamodb (rd : receipt_data) (bucket : pyval)
           (key : string) : M unit :=
  try_except
    (let table := DYNAMODB_TABLE in
     now <- datetime_now ;;
     dynamodb_put_item table (build_db_item rd now) ;;
     print ("Receipt data stored in DynamoDB: " +++ receipt_id rd))
    (fun e =>
       print ("Error storing data in DynamoDB: " +++ str_exn e) ;;
       raise e).

(** *** send_email_notification *)

(** One [<li>] of the item list. *)
Definition item_html (item : pydict) : string :=
  let name := Dict.get_default "name" (PStr "Unknown Item") item in
  let price := Dict.get_default "price" (PStr "N/A") item in
  let quantity := Dict.get_default "quantity" (PStr "1") item in
  "<li>" +++ py_str name +++ " - $" +++ py_str price
         +++ " x " +++ py_str quantity +++ "</li>".

(** The f-string template of the message, line by line. *)
Definition html_body (rd : receipt_data) (items_html : string) : string :=
  String.concat nl
    [ "";
      "        <html>";
      "        <body>";
      "            <h2>📧 Receipt Processing Notification</h2>";
      "            <p><strong>Receipt ID:</strong> " +++ receipt_id rd +++ "</p>";
      "            <p><strong>Vendor:</strong> " +++ py_str (vendor rd) +++ "</p>";
      "            <p><strong>Date:</strong> " +++ py_str (date rd) +++ "</p>";
      "            <p><strong>Total Amount:</strong> $" +++ py_str (total rd) +++ "</p>";
      "            <p><strong>S3 Location:</strong> " +++ s3_path rd +++ "</p>";
      "";
      "            <h3>📋 Items:</h3>";
      "            <ul>";
      "                " +++ items_html;
      "            </ul>";
      "";
      "            <p>✅ The receipt has been processed and stored in DynamoDB.</p>";
      "        </body>";
      "        </html>";
      "        " ].

(** [items_html] after the loop and the test for no items. *)
Definition email_items_html (rd : receipt_data) : string :=
  let items_html :=
    fold_left (fun acc item => acc +++ item_html item) (items rd) "" in
  if String.eqb items_html "" then "<li>No items detected</li>"
  else items_html.

Definition email_subject (rd : receipt_data) : string :=
  "Receipt Processed: " +++ py_str (vendor rd)
    +++ " - $" +++ py_str (total rd).

Definition send_email_notification (rd : receipt_data) : M unit :=
  try_except
    (let items_html := email_items_html rd in
     ses_send_email SES_SENDER_EMAIL
                    [SES_RECIPIENT_EMAIL]
                    (email_subject rd)
                    (html_body rd items_html) ;;
     print ("Email notification sent to " +++ SES_RECIPIENT_EMAIL))
    (fun e =>
       print ("Error sending email notification: " +++ str_exn e) ;;
       print "Continuing execution despite email error").

(** *** lambda_handler *)

(** The [try] block that verifies the object. *)
Definition verify_object (bucket : pyval) (key : string) : M unit :=
  try_except
    (s3_head_object bucket key ;;
     print ("Object verification successful: "
              +++ py_str bucket +++ "/" +++ key))
    (fun e =>
       print ("Object verification failed: " +++ str_exn e) ;;
       raise (Exception_ ("Unable to access object " +++ key
                            +++ " in bucket " +++ py_str bucket
                            +++ ": " +++ str_exn e))).

(** The bucket and the decoded key the event names. *)
Definition event_location (event : pyval) : Err (pyval * string) :=
  let? bucket := event_bucket event in
  let? raw := event_key event in
  let? key := unquote_plus raw in
  inr (bucket, key).

(** The handler's outer [try] block. *)
Definition handler_body (event : pyval) : M response :=
  loc <- lift (event_location event) ;;
  let bucket := fst loc in
  let key := snd loc in
  print ("Processing receipt from " +++ py_str bucket +++ "/" +++ key) ;;
  verify_object bucket key ;;
  receipt_data <- process_receipt_with_textract bucket key ;;
  store_receipt_in_dynamodb receipt_data bucket key ;;
  send_email_notification receipt_data ;;
  ret (mkResponse 200
         (rt_json_dumps rt (PStr "Receipt processed successfully!"))).

Definition lambda_handler (event context : pyval) : M response :=
  try_except
    (handler_body event)
    (fun e =>
       print ("Error processing receipt: " +++ str_exn e) ;;
       ret (mkResponse 500
              (rt_json_dumps rt (PStr ("Error: " +++ str_exn e))))).

End Pipeline.

(** ** The record a run starts from *)

(** The record before the response is read. *)
Definition initial_receipt (rt : Runtime) (bucket : pyval) (key : string) (t : ticks)
  : receipt_data :=
  mkReceipt (rt_uuid4 rt (uuid_draws t))
            (PStr (rt_strftime_Ymd rt (rt_now rt (clock_reads t))))
            (PStr "Unknown")
            (PStr "0.00")
            []
            ("s3://" +++ py_str rt bucket +++ "/" +++ key).

(** ** The two responses of the handler *)

Definition success_response (rt : Runtime) : response :=
  mkResponse 200 (rt_json_dumps rt (PStr "Receipt processed successfully!")).

Definition failure_response (rt : Runtime) (e : exn) : response :=
  mkResponse 500 (rt_json_dumps rt (PStr ("Error: " +++ str_exn rt e))).

(** The exception the handler raises when the object check raised [e]. *)
Definition access_error (rt : Runtime) (bucket : pyval) (key : string) (e : exn)
  : exn :=
  Exception_ ("Unable to access object " +++ key
                +++ " in bucket " +++ py_str rt bucket
                +++ ": " +++ str_exn rt e).

(** The ticks after a processing step that drew its UUID and read the
    clock. *)
Definition processed (t : ticks) : ticks :=
  mkTicks (S (uuid_draws t)) (S (clock_reads t)).

(** ** Reading a Textract response and a trace of events *)

(** These definitions describe the input and the trace on their own terms;
    the properties below relate them to what the pipeline computes. *)

(** The value under key [k] when [v] is a dict that has it. *)
Definition dict_field (k : string) (v : pyval) : option pyval :=
  match v with
  | PDict d => Dict.get k d
  | _ => None
  end.

(** The elements of a JSON array, nothing for any other value. *)
Definition list_elems (v : option pyval) : list pyval :=
  match v with
  | Some (PList xs) => xs
  | _ => []
  end.

(** The type tag of a field, [Type.Text]. *)
Definition field_tag (field : pyval) : option pyval :=
  match dict_field "Type" field with
  | Some ty => dict_field "Text" ty
  | None => None
  end.

Definition tagged (tag : string) (field : pyval) : bool :=
  match field_tag field with
  | Some (PStr s) => String.eqb s tag
  | _ => false
  end.

(** A line item has an ITEM-tagged field among its expense fields. *)
Definition has_item_field (line_item : pyval) : bool :=
  existsb (tagged "ITEM")
          (list_elems (dict_field "LineItemExpenseFields" line_item)).

(** The expense documents of a response. *)
Definition expense_documents (resp : pyval) : list pyval :=
  list_elems (dict_field "ExpenseDocuments" resp).

(** All line items of all line-item groups of an expense document. *)
Definition line_items_of (expense_doc : pyval) : list pyval :=
  flat_map (fun group => list_elems (dict_field "LineItems" group))
           (list_elems (dict_field "LineItemGroups" expense_doc)).

(** The line items the mapper is given: those of the first document. *)
Definition input_line_items (resp : pyval) : list pyval :=
  match expense_documents resp with
  | doc :: _ => line_items_of doc
  | [] => []
  end.

(** [rd] after the items [kept] were appended to it. *)
Definition with_items (rd : receipt_data) (kept : list pydict) : receipt_data :=
  mkReceipt (receipt_id rd) (date rd) (vendor rd) (total rd)
            (items rd ++ kept) (s3_path rd).

(** [kept] holds, in order, the items built from the line items of [ls]
    that have an ITEM-tagged field. *)
Definition built_from (ls : list pyval) (kept : list pydict) : Prop :=
  Forall2 (fun line_item item => build_item line_item = inr item)
          (filter has_item_field ls) kept.

Definition dict_or_absent (o : option pyval) : bool :=
  match o with
  | None => true
  | Some (PDict _) => true
  | Some _ => false
  end.

(** A field as Textract reports it: a dict whose [Type] and
    [ValueDetection] parts, when present, are dicts. *)
Definition well_formed_field (field : pyval) : bool :=
  match field with
  | PDict fd =>
      dict_or_absent (Dict.get "Type" fd) &&
      dict_or_absent (Dict.get "ValueDetection" fd)
  | _ => false
  end.

Definition is_analysis_call (ev : event) : bool :=
  match ev with AnalyzeExpense _ _ => true | _ => false end.

Definition is_store_call (ev : event) : bool :=
  match ev with PutItem _ _ => true | _ => false end.

Definition is_mail_call (ev : event) : bool :=
  match ev with SendEmail _ _ _ _ => true | _ => false end.


(** [out] is [item] with the three item fields present, in this order,
    a missing one replaced by its default. *)
Definition normalized_from (item out : pydict) : Prop :=
  Dict.keys out = ["name"; "price"; "quantity"] /\
  Dict.get "name" out =
    Some (match Dict.get "name" item with Some v => v | None => PStr "Unknown Item" end) /\
  Dict.get "price" out =
    Some (match Dict.get "price" item with Some v => v | None => PStr "0.00" end) /\
  Dict.get "quantity" out =
    Some (match Dict.get "quantity" item with Some v => v | None => PStr "1" end).

(** The detected text of a field, [ValueDetection.Text]; the empty string
    when either part is missing. *)
Definition field_text (field : pyval) : pyval :=
  match dict_field "ValueDetection" field with
  | Some vd =>
      match dict_field "Text" vd with
      | Some v => v
      | None => PStr ""
      end
  | None => PStr ""
  end.

(** The text of the last field of [fields] tagged [tag], [default] when
    no field carries the tag. *)
Definition last_tagged (tag : string) (fields : list pyval) (default : pyval)
  : pyval :=
  fold_left (fun acc field => if tagged tag field then field_text field else acc)
            fields default.

(** The same, for a key that is absent until a field carries the tag. *)
Definition last_tagged_opt (tag : string) (fields : list pyval) : option pyval :=
  fold_left (fun acc field =>
               if tagged tag field then Some (field_text field) else acc)
            fields None.

(** The expense fields of a line item. *)
Definition expense_fields (line_item : pyval) : list pyval :=
  list_elems (dict_field "LineItemExpenseFields" line_item).

(** The four external calls, by kind, in the order the handler makes
    them. *)
Inductive call_kind : Type :=
| HeadCall
| AnalysisCall
| StoreCall
| MailCall.

Definition call_kind_of (ev : event) : option call_kind :=
  match ev with
  | Printed _ => None
  | HeadObject _ _ => Some HeadCall
  | AnalyzeExpense _ _ => Some AnalysisCall
  | PutItem _ _ => Some StoreCall
  | SendEmail _ _ _ _ => Some MailCall
  end.

(** The kinds of the calls of a trace, in order. *)
Definition calls (evs : list event) : list call_kind :=
  flat_map (fun ev =>
              match call_kind_of ev with
              | Some k => [k]
              | None => []
              end) evs.

Definition pipeline_calls : list call_kind :=
  [HeadCall; AnalysisCall; StoreCall; MailCall].

(** A JSON array all of whose elements satisfy [p], or no value at all. *)
Definition list_of_or_absent (p : pyval -> bool) (o : option pyval) : bool :=
  match o with
  | None => true
  | Some (PList xs) => forallb p xs
  | Some _ => false
  end.

Definition well_formed_line_item (line_item : pyval) : bool :=
  match line_item with
  | PDict d =>
      list_of_or_absent well_formed_field (Dict.get "LineItemExpenseFields" d)
  | _ => false
  end.

Definition well_formed_group (group : pyval) : bool :=
  match group with
  | PDict d => list_of_or_absent well_formed_line_item (Dict.get "LineItems" d)
  | _ => false
  end.

Definition well_formed_document (expense_doc : pyval) : bool :=
  match expense_doc with
  | PDict d =>
      list_of_or_absent well_formed_field (Dict.get "SummaryFields" d) &&
      list_of_or_absent well_formed_group (Dict.get "LineItemGroups" d)
  | _ => false
  end.

(** A response as Textract sends it: a dict whose expense documents, when
    present, are a list, the first of them well formed. *)
Definition well_formed_response (resp : pyval) : bool :=
  match resp with
  | PDict d =>
      match Dict.get "ExpenseDocuments" d with
      | None => true
      | Some (PList []) => true
      | Some (PList (expense_doc :: _)) => well_formed_document expense_doc
      | Some _ => false
      end
  | _ => false
  end.

(** The processing of one expense document: its summary fields, then its
    line items. *)
Definition process_expense_doc (expense_doc : pyval) (rd : receipt_data)
  : Err receipt_data :=
  let? rd1 := process_summary_fields expense_doc rd in
  process_line_items expense_doc rd1.

(** The bucket name and the object key as the event's JSON holds them:
    [Records[0].s3.bucket.name] and [Records[0].s3.object.key]. *)
Definition named_object (event : pyval) : option (pyval * pyval) :=
  match list_elems (dict_field "Records" event) with
  | record :: _ =>
      match dict_field "s3" record with
      | Some s3 =>
          match dict_field "bucket" s3, dict_field "object" s3 with
          | Some bucket, Some object =>
              match dict_field "name" bucket, dict_field "key" object with
              | Some name, Some key => Some (name, key)
              | _, _ => None
              end
          | _, _ => None
          end
      | None => None
      end
  | [] => None
  end.

(** ** Sample inputs *)

Definition text_of (s : string) : pyval := PDict [("Text", PStr s)].

(** An expense field as Textract reports it. *)
Definition expense_field (tag value : string) : pyval :=
  PDict [("Type", text_of tag); ("ValueDetection", text_of value)].

(** The receipt of Cafe X: three summary fields and one line item. *)
Definition cafe_response : pyval :=
  PDict
    [("ExpenseDocuments",
      PList
        [PDict
           [("SummaryFields",
             PList [expense_field "TOTAL" "12.50";
                    expense_field "VENDOR_NAME" "Cafe X";
                    expense_field "INVOICE_RECEIPT_DATE" "2024-03-01"]);
            ("LineItemGroups",
             PList
               [PDict
                  [("LineItems",
                    PList
                      [PDict
                         [("LineItemExpenseFields",
                           PList [expense_field "ITEM" "Coffee";
                                  expense_field "PRICE" "4.00";
                                  expense_field "QUANTITY" "2"])]])]])]])].

(** A receipt with two line items, the second without a name. *)
Definition nameless_item_response : pyval :=
  PDict
    [("ExpenseDocuments",
      PList
        [PDict
           [("LineItemGroups",
             PList
               [PDict
                  [("LineItems",
                    PList
                      [PDict [("LineItemExpenseFields",
                               PList [expense_field "ITEM" "Tea"])];
                       PDict [("LineItemExpenseFields",
                               PList [expense_field "PRICE" "3.00"])]])]])]])].

(** A response with an empty list of expense documents. *)
Definition blank_response : pyval :=
  PDict [("ExpenseDocuments", PList [])].

(** A line item whose ITEM field carries no detected value. *)
Definition unnamed_line_item : pyval :=
  PDict [("LineItemExpenseFields",
          PList [PDict [("Type", text_of "ITEM")];
                 expense_field "PRICE" "1.00"])].

(** The upload notification of [cafe.jpg] in bucket [receipts]. *)
Definition upload_event : pyval :=
  PDict
    [("Records",
      PList
        [PDict
           [("s3",
             PDict [("bucket", PDict [("name", PStr "receipts")]);
                    ("object", PDict [("key", PStr "cafe.jpg")])])]])].

Definition decimal (n : nat) : string :=
  DecimalString.NilEmpty.string_of_uint (Nat.to_uint n).

(** A runtime for concrete runs: keys without escapes, a counter for the
    UUIDs, and a clock that is read as its tick number. *)
Definition sample_runtime : Runtime :=
  mkRuntime (fun s => s)
            (fun v => match v with PStr s => s | _ => "<json>" end)
            (fun _ => "<repr>")
            (fun _ => "<message>")
            (fun n => "uuid-" +++ decimal n)
            (fun n => Z.of_nat n)
            (fun _ => "2024-03-05")
            (fun _ => "2024-03-05T10:00:00").

(** Services whose object check, store write and mail send succeed or
    fail as told, and whose analysis returns [resp]. *)
Definition sample_services (head_ok store_ok mail_ok : bool) (resp : pyval)
  : Services :=
  mkServices (fun _ => None)
             (fun _ _ => if head_ok then None else Some (ClientError "Not Found"))
             (fun _ _ => inr resp)
             (fun _ _ => if store_ok then None else Some (ClientError "Unavailable"))
             (fun _ _ _ _ => if mail_ok then None else Some (ClientError "Rejected")).

Definition start : ticks := mkTicks 0 0.

(** A response whose summary names two totals and no vendor. *)
Definition two_totals_response : pyval :=
  PDict
    [("ExpenseDocuments",
      PList
        [PDict
           [("SummaryFields",
             PList [expense_field "TOTAL" "9.00";
                    expense_field "SUBTOTAL" "8.00";
                    expense_field "TOTAL" "9.50"])]])].

(** A response with a summary field whose [Type] is null. *)
Definition null_type_response : pyval :=
  PDict
    [("ExpenseDocuments",
      PList
        [PDict
           [("SummaryFields",
             PList [expense_field "TOTAL" "9.00";
                    PDict [("Type", PNone);
                           ("ValueDetection", text_of "Cafe X")]])]])].

(** The receipt of Cafe X followed by a second expense document. *)
Definition two_document_response : pyval :=
  PDict
    [("ExpenseDocuments",
      PList
        [PDict
           [("SummaryFields", PList [expense_field "TOTAL" "12.50"])];
         PDict
           [("SummaryFields", PList [expense_field "TOTAL" "99.00"])]])].

(** A record with one named item that has neither price nor quantity. *)
Definition tea_receipt : receipt_data :=
  mkReceipt "uuid-7" (PStr "2024-03-05") (PStr "Tea House") (PStr "3.00")
            [[("name", PStr "Tea")]] "s3://receipts/tea.jpg".

(** The record the mapper builds from the receipt of Cafe X in the first
    run of [sample_runtime]. *)
Definition cafe_record : receipt_data :=
  mkReceipt "uuid-0" (PStr "2024-03-01") (PStr "Cafe X") (PStr "12.50")
            [[("name", PStr "Coffee"); ("price", PStr "4.00");
              ("quantity", PStr "2")]]
            "s3://receipts/cafe.jpg".


(** The [+] to space part of [unquote_plus]. *)
Fixpoint plus_to_space (s : string) : string :=
  match s with
  | EmptyString => EmptyString
  | String c rest =>
      String (if Ascii.eqb c "+"%char then " "%char else c) (plus_to_space rest)
  end.

(** A runtime that decodes the [+] of a key. *)
Definition decoding_runtime : Runtime :=
  mkRuntime plus_to_space
            (fun v => match v with PStr s => s | _ => "<json>" end)
            (fun _ => "<repr>")
            (fun _ => "<message>")
            (fun n => "uuid-" +++ decimal n)
            (fun n => Z.of_nat n)
            (fun _ => "2024-03-05")
            (fun _ => "2024-03-05T10:00:00").

(** The upload notification of [my receipt.jpg], its key encoded. *)
Definition encoded_key_event : pyval :=
  PDict
    [("Records",
      PList
        [PDict
           [("s3",
             PDict [("bucket", PDict [("name", PStr "receipts")]);
                    ("object", PDict [("key", PStr "my+receipt.jpg")])])]])].

(** Services that all succeed, in an environment that names the table,
    the sender and the recipient. *)
Definition configured_services (resp : pyval) : Services :=
  mkServices (fun name =>
                if String.eqb name "DYNAMODB_TABLE" then Some "Receipts"
                else if String.eqb name "SES_SENDER_EMAIL" then Some "bot@example.com"
                else if String.eqb name "SES_RECIPIENT_EMAIL" then Some "me@example.com"
                else None)
             (fun _ _ => None)
             (fun _ _ => inr resp)
             (fun _ _ => None)
             (fun _ _ _ _ => None).

(** A response whose only line item has an ITEM field without a value. *)
Definition unnamed_item_response : pyval :=
  PDict
    [("ExpenseDocuments",
      PList
        [PDict
           [("LineItemGroups",
             PList [PDict [("LineItems", PList [unnamed_line_item])]])]])].


(** An event with no [Records] key. *)
Definition empty_event : pyval := PDict [].

(** Services whose analysis call raises. *)
Definition analysis_down : Services :=
  mkServices (fun _ => None)
             (fun _ _ => None)
             (fun _ _ => inl (ClientError "Throttled"))
             (fun _ _ => None)
             (fun _ _ _ _ => None).

(** ** Properties *)

(** *** The monad *)

Lemma bind_inl {A B} (m : M A) (k : A -> M B) (t : ticks) (e : exn) :
  result (m t) = inl e ->
  bind m k t = mkRun (inl e) (events (m t)) (after (m t)).
Proof.
  unfold bind. destruct (m t) as [r evs t']. cbn. intros ->. reflexivity.
Qed.

Lemma bind_inr {A B} (m : M A) (k : A -> M B) (t : ticks) (a : A) :
  result (m t) = inr a ->
  bind m k t =
    mkRun (result (k a (after (m t))))
          (events (m t) ++ events (k a (after (m t))))
          (after (k a (after (m t)))).
Proof.
  unfold bind. destruct (m t) as [r evs t']. cbn. intros ->.
  destruct (k a t'). reflexivity.
Qed.

Lemma try_except_inr {A} (m : M A) (h : exn -> M A) (t : ticks) (a : A) :
  result (m t) = inr a -> try_except m h t = m t.
Proof.
  unfold try_except. destruct (m t) as [r evs t']. cbn. intros ->.
  reflexivity.
Qed.

Lemma try_except_inl {A} (m : M A) (h : exn -> M A) (t : ticks) (e : exn) :
  result (m t) = inl e ->
  try_except m h t =
    mkRun (result (h e (after (m t))))
          (events (m t) ++ events (h e (after (m t))))
          (after (h e (after (m t)))).
Proof.
  unfold try_except. destruct (m t) as [r evs t']. cbn. intros ->.
  destruct (h e t'). reflexivity.
Qed.

(** *** Dictionaries *)

Lemma dict_get_set_same (k : string) (v : pyval) (d : pydict) :
  Dict.get k (Dict.set k v d) = Some v.
Proof.
  induction d as [| [k' v'] d IH]; cbn.
  - rewrite String.eqb_refl. reflexivity.
  - destruct (String.eqb k k') eqn:E; cbn; rewrite E; [reflexivity | exact IH].
Qed.

Lemma dict_get_set_other (k k' : string) (v : pyval) (d : pydict) :
  k <> k' -> Dict.get k (Dict.set k' v d) = Dict.get k d.
Proof.
  intros Hne. induction d as [| [k0 v0] d IH]; cbn.
  - destruct (String.eqb_spec k k'); [contradiction | reflexivity].
  - destruct (String.eqb_spec k' k0) as [-> | Hk]; cbn.
    + destruct (String.eqb_spec k k0); [contradiction | reflexivity].
    + destruct (String.eqb k k0); [reflexivity | exact IH].
Qed.

Lemma dict_mem_set_same (k : string) (v : pyval) (d : pydict) :
  Dict.mem k (Dict.set k v d) = true.
Proof. unfold Dict.mem. rewrite dict_get_set_same. reflexivity. Qed.

(** *** The field mapper *)

Lemma for_each_app {A S} (xs ys : list A) (body : A -> S -> Err S) (s : S) :
  for_each (xs ++ ys) body s =
    let? s' := for_each xs body s in for_each ys body s'.
Proof.
  revert s. induction xs as [| x xs IH]; intros s; cbn.
  - reflexivity.
  - destruct (body x s) as [e | s']; cbn; [reflexivity | apply IH].
Qed.

(** A loop over strings whose body rejects every string runs only on the
    empty sequence. *)
Lemma for_each_strings_rejected {S} (l : list string)
      (body : pyval -> S -> Err S) (s s' : S) :
  (forall x s0, exists e, body (PStr x) s0 = inl e) ->
  for_each (map PStr l) body s = inr s' -> l = [].
Proof.
  intros Hrej H. destruct l as [| x l]; [reflexivity |].
  cbn in H. destruct (Hrej x s) as [e He]. rewrite He in H. discriminate.
Qed.

(** The type the code reads off a field is the field's tag. *)
Lemma field_type_tagged (field ty v : pyval) (tag : string) :
  tag <> "" ->
  field_type_and_value field = inr (ty, v) ->
  py_eq_str ty tag = tagged tag field.
Proof.
  intros Htag H. destruct field as [| | | | | | fd]; try discriminate.
  unfold field_type_and_value in H. cbn in H.
  unfold tagged, field_tag. cbn.
  unfold Dict.get_default in H.
  destruct (Dict.get "Type" fd) as [ty0 |]; cbn in H.
  - destruct ty0 as [| | | | | | td]; try discriminate. cbn in H. cbn.
    destruct (Dict.get "ValueDetection" fd) as [vd |]; cbn in H.
    + destruct vd as [| | | | | | vd]; try discriminate. cbn in H.
      inversion H; subst. unfold Dict.get_default.
      destruct (Dict.get "Text" td) as [x |]; [reflexivity |].
      cbn. destruct tag; [congruence | reflexivity].
    + inversion H; subst. unfold Dict.get_default.
      destruct (Dict.get "Text" td) as [x |]; [reflexivity |].
      cbn. destruct tag; [congruence | reflexivity].
  - destruct (Dict.get "ValueDetection" fd) as [vd |]; cbn in H.
    + destruct vd as [| | | | | | vd]; try discriminate. cbn in H.
      inversion H; subst. cbn.
      destruct tag; [congruence | reflexivity].
    + inversion H; subst. cbn.
      destruct tag; [congruence | reflexivity].
Qed.

Lemma field_type_and_value_string (x : string) :
  field_type_and_value (PStr x) = inl AttributeError.
Proof. reflexivity. Qed.

(** A well-formed field is read without an exception. *)
Lemma field_type_and_value_total (field : pyval) :
  well_formed_field field = true ->
  exists ty v, field_type_and_value field = inr (ty, v).
Proof.
  destruct field as [| | | | | | fd]; try discriminate.
  cbn. intros H. apply andb_prop in H. destruct H as [Hty Hvd].
  unfold field_type_and_value, py_get, Dict.get_default.
  destruct (Dict.get "Type" fd) as [[| | | | | | td] |]; try discriminate;
    destruct (Dict.get "ValueDetection" fd) as [[| | | | | | vd] |];
    try discriminate; cbn; eauto.
Qed.

(** One step of the field loop sets [name] exactly on an ITEM field. *)
Lemma line_item_field_step_name (field : pyval) (item item' : pydict) :
  line_item_field_step field item = inr item' ->
  Dict.mem "name" item' = Dict.mem "name" item || tagged "ITEM" field.
Proof.
  unfold line_item_field_step.
  destruct (field_type_and_value field) as [e | [ty v]] eqn:E; cbn;
    [discriminate |].
  assert (HI : py_eq_str ty "ITEM" = tagged "ITEM" field)
    by (apply (field_type_tagged _ _ v); [discriminate | exact E]).
  rewrite HI.
  destruct (tagged "ITEM" field).
  - intros H. inversion H. rewrite dict_mem_set_same, orb_true_r. reflexivity.
  - rewrite orb_false_r.
    destruct (py_eq_str ty "PRICE");
      [| destruct (py_eq_str ty "QUANTITY")];
      intros H; inversion H; try reflexivity;
      unfold Dict.mem; rewrite dict_get_set_other by discriminate; reflexivity.
Qed.

Lemma for_each_fields_name (fs : list pyval) (item item' : pydict) :
  for_each fs line_item_field_step item = inr item' ->
  Dict.mem "name" item' = Dict.mem "name" item || existsb (tagged "ITEM") fs.
Proof.
  revert item. induction fs as [| f fs IH]; intros item; cbn.
  - intros H. inversion H. rewrite orb_false_r. reflexivity.
  - destruct (line_item_field_step f item) as [e | item1] eqn:E; cbn;
      [discriminate |].
    intros H. rewrite (IH _ H), (line_item_field_step_name _ _ _ E).
    rewrite orb_assoc. reflexivity.
Qed.

(** The item built from a line item has a name exactly when the line
    item has an ITEM-tagged field. *)
Lemma build_item_name (line_item : pyval) (item : pydict) :
  build_item line_item = inr item ->
  Dict.mem "name" item = has_item_field line_item.
Proof.
  unfold build_item, has_item_field.
  destruct line_item as [| | | | | | d]; try discriminate. cbn.
  unfold Dict.get_default.
  destruct (Dict.get "LineItemExpenseFields" d) as [fields |]; cbn.
  - destruct fields as [| | | | s | xs | kvs]; try discriminate; cbn.
    + intros H.
      assert (Hs : chars_of s = []).
      { eapply for_each_strings_rejected; [| exact H].
        intros x s0. eexists. unfold line_item_field_step.
        rewrite field_type_and_value_string. reflexivity. }
      rewrite Hs in H. cbn in H. now inversion H.
    + intros H. rewrite (for_each_fields_name _ _ _ H). reflexivity.
    + intros H.
      assert (Hs : Dict.keys kvs = []).
      { eapply for_each_strings_rejected; [| exact H].
        intros x s0. eexists. unfold line_item_field_step.
        rewrite field_type_and_value_string. reflexivity. }
      rewrite Hs in H. cbn in H. now inversion H.
  - intros H. now inversion H.
Qed.

Lemma with_items_nil (rd : receipt_data) : with_items rd [] = rd.
Proof. destruct rd. unfold with_items. cbn. rewrite app_nil_r. reflexivity. Qed.

Lemma with_items_app (rd : receipt_data) (xs ys : list pydict) :
  with_items (with_items rd xs) ys = with_items rd (xs ++ ys).
Proof. unfold with_items. cbn. rewrite app_assoc. reflexivity. Qed.

Lemma built_from_nil : built_from [] [].
Proof. constructor. Qed.

Lemma built_from_app (xs ys : list pyval) (ks ls : list pydict) :
  built_from xs ks -> built_from ys ls -> built_from (xs ++ ys) (ks ++ ls).
Proof.
  unfold built_from. intros Hx Hy. rewrite filter_app.
  apply Forall2_app; assumption.
Qed.

Lemma unchanged_record (rd rd' : receipt_data) :
  @inr exn receipt_data rd = inr rd' ->
  exists kept, built_from [] kept /\ rd' = with_items rd kept.
Proof.
  intros H. inversion H. exists []. split;
    [apply built_from_nil | symmetry; apply with_items_nil].
Qed.

Lemma line_item_step_items (line_item : pyval) (rd rd' : receipt_data) :
  line_item_step line_item rd = inr rd' ->
  exists kept, built_from [line_item] kept /\ rd' = with_items rd kept.
Proof.
  unfold line_item_step.
  destruct (build_item line_item) as [e | item] eqn:E; cbn; [discriminate |].
  rewrite (build_item_name _ _ E). unfold built_from. cbn.
  destruct (has_item_field line_item); intros H; inversion H.
  - exists [item]. split; [repeat constructor; exact E | reflexivity].
  - exists []. split; [constructor | symmetry; apply with_items_nil].
Qed.

Lemma for_each_line_items (ls : list pyval) (rd rd' : receipt_data) :
  for_each ls line_item_step rd = inr rd' ->
  exists kept, built_from ls kept /\ rd' = with_items rd kept.
Proof.
  revert rd. induction ls as [| li ls IH]; intros rd; cbn.
  - intros H. inversion H. exists []. split;
      [apply built_from_nil | symmetry; apply with_items_nil].
  - destruct (line_item_step li rd) as [e | rd1] eqn:E; cbn; [discriminate |].
    intros H.
    destruct (line_item_step_items _ _ _ E) as (k1 & B1 & ->).
    destruct (IH _ H) as (k2 & B2 & ->).
    exists (k1 ++ k2). split.
    + apply (built_from_app [li] ls); assumption.
    + apply with_items_app.
Qed.

Lemma line_item_step_string (x : string) (rd : receipt_data) :
  exists e, line_item_step (PStr x) rd = inl e.
Proof. eexists. reflexivity. Qed.

Lemma group_step_items (group : pyval) (rd rd' : receipt_data) :
  group_step group rd = inr rd' ->
  exists kept,
    built_from (list_elems (dict_field "LineItems" group)) kept /\
    rd' = with_items rd kept.
Proof.
  pose proof (unchanged_record rd) as Hnone.
  unfold group_step.
  destruct group as [| | | | s | xs | d]; try discriminate; cbn.
  - destruct (substringb "LineItems" s); cbn; [discriminate | apply Hnone].
  - destruct (existsb _ xs); cbn; [discriminate | apply Hnone].
  - unfold Dict.mem.
    destruct (Dict.get "LineItems" d) as [line_items |]; cbn; [| apply Hnone].
    destruct line_items as [| | | | s | ls | kvs]; try discriminate; cbn.
    + intros H.
      assert (Hs : chars_of s = [])
        by (eapply for_each_strings_rejected;
            [intros; apply line_item_step_string | exact H]).
      rewrite Hs in H. apply Hnone. exact H.
    + apply for_each_line_items.
    + intros H.
      assert (Hs : Dict.keys kvs = [])
        by (eapply for_each_strings_rejected;
            [intros; apply line_item_step_string | exact H]).
      rewrite Hs in H. apply Hnone. exact H.
Qed.

Lemma for_each_groups (gs : list pyval) (rd rd' : receipt_data) :
  for_each gs group_step rd = inr rd' ->
  exists kept,
    built_from
      (flat_map (fun group => list_elems (dict_field "LineItems" group)) gs)
      kept /\
    rd' = with_items rd kept.
Proof.
  revert rd. induction gs as [| g gs IH]; intros rd; cbn.
  - intros H. inversion H. exists []. split;
      [apply built_from_nil | symmetry; apply with_items_nil].
  - destruct (group_step g rd) as [e | rd1] eqn:E; cbn; [discriminate |].
    intros H.
    destruct (group_step_items _ _ _ E) as (k1 & B1 & ->).
    destruct (IH _ H) as (k2 & B2 & ->).
    exists (k1 ++ k2). split.
    + apply built_from_app; assumption.
    + apply with_items_app.
Qed.

(** A group that is a string holds no line items: the loop over strings
    leaves the record as it is. *)
Lemma for_each_string_groups (l : list string) (rd rd' : receipt_data) :
  for_each (map PStr l) group_step rd = inr rd' -> rd' = rd.
Proof.
  revert rd. induction l as [| x l IH]; intros rd; cbn.
  - intros H. now inversion H.
  - unfold group_step at 1. cbn.
    destruct (substringb "LineItems" x); cbn; [discriminate |].
    apply IH.
Qed.

Lemma process_line_items_items (expense_doc : pyval) (rd rd' : receipt_data) :
  process_line_items expense_doc rd = inr rd' ->
  exists kept,
    built_from (line_items_of expense_doc) kept /\ rd' = with_items rd kept.
Proof.
  pose proof (unchanged_record rd) as Hnone.
  unfold process_line_items, line_items_of.
  destruct expense_doc as [| | | | s | xs | d]; try discriminate; cbn.
  - destruct (substringb "LineItemGroups" s); cbn; [discriminate | apply Hnone].
  - destruct (existsb _ xs); cbn; [discriminate | apply Hnone].
  - unfold Dict.mem.
    destruct (Dict.get "LineItemGroups" d) as [groups |]; cbn; [| apply Hnone].
    destruct groups as [| | | | s | gs | kvs]; try discriminate; cbn.
    + intros H. apply for_each_string_groups in H. apply Hnone. now subst.
    + apply for_each_groups.
    + intros H. apply for_each_string_groups in H. apply Hnone. now subst.
Qed.

(** The summary fields change neither the items nor the identifier. *)
Lemma summary_field_step_keeps (field : pyval) (rd rd' : receipt_data) :
  summary_field_step field rd = inr rd' ->
  items rd' = items rd /\ receipt_id rd' = receipt_id rd.
Proof.
  unfold summary_field_step.
  destruct (field_type_and_value field) as [e | [ty v]]; cbn; [discriminate |].
  destruct (py_eq_str ty "TOTAL");
    [| destruct (py_eq_str ty "INVOICE_RECEIPT_DATE");
       [| destruct (py_eq_str ty "VENDOR_NAME")]];
    intros H; inversion H; split; reflexivity.
Qed.

Lemma for_each_summary_keeps (fs : list pyval) (rd rd' : receipt_data) :
  for_each fs summary_field_step rd = inr rd' ->
  items rd' = items rd /\ receipt_id rd' = receipt_id rd.
Proof.
  revert rd. induction fs as [| f fs IH]; intros rd; cbn.
  - intros H. inversion H. split; reflexivity.
  - destruct (summary_field_step f rd) as [e | rd1] eqn:E; cbn; [discriminate |].
    intros H. destruct (summary_field_step_keeps _ _ _ E) as [Hi Hr].
    rewrite <- Hi, <- Hr. apply IH. exact H.
Qed.

Lemma process_summary_fields_keeps (expense_doc : pyval) (rd rd' : receipt_data) :
  process_summary_fields expense_doc rd = inr rd' ->
  items rd' = items rd /\ receipt_id rd' = receipt_id rd.
Proof.
  unfold process_summary_fields.
  destruct (py_contains "SummaryFields" expense_doc) as [e | b]; cbn;
    [discriminate |].
  destruct b.
  - destruct (py_getitem expense_doc "SummaryFields") as [e | fields]; cbn;
      [discriminate |].
    destruct (py_iter fields) as [e | fs]; cbn; [discriminate |].
    apply for_each_summary_keeps.
  - intros H. inversion H. split; reflexivity.
Qed.

Lemma process_expense_doc_items (expense_doc : pyval) (rd rd' : receipt_data) :
  (let? rd1 := process_summary_fields expense_doc rd in
   process_line_items expense_doc rd1) = inr rd' ->
  exists kept,
    built_from (line_items_of expense_doc) kept /\
    items rd' = items rd ++ kept /\
    receipt_id rd' = receipt_id rd.
Proof.
  destruct (process_summary_fields expense_doc rd) as [e | rd1] eqn:E; cbn;
    [discriminate |].
  intros H. destruct (process_summary_fields_keeps _ _ _ E) as [Hi Hr].
  destruct (process_line_items_items _ _ _ H) as (kept & B & ->).
  exists kept. cbn. rewrite Hi, Hr. auto.
Qed.

(** The mapper appends to the record, in order, the items built from the
    input line items that have an ITEM-tagged field, and keeps the
    identifier. *)
Lemma extract_receipt_items (resp : pyval) (rd rd' : receipt_data) :
  extract_receipt resp rd = inr rd' ->
  exists kept,
    built_from (input_line_items resp) kept /\
    items rd' = items rd ++ kept /\
    receipt_id rd' = receipt_id rd.
Proof.
  assert (Hnone : forall rd0, @inr exn receipt_data rd = inr rd0 ->
            exists kept, built_from [] kept /\
                         items rd0 = items rd ++ kept /\
                         receipt_id rd0 = receipt_id rd).
  { intros rd0 H. inversion H. exists []. rewrite app_nil_r.
    split; [apply built_from_nil | split; reflexivity]. }
  unfold extract_receipt, has_expense_documents, input_line_items,
    expense_documents.
  destruct resp as [| | | | s | xs | d]; try discriminate; cbn.
  - destruct (substringb "ExpenseDocuments" s); cbn; [discriminate | apply Hnone].
  - destruct (existsb _ xs); cbn; [discriminate | apply Hnone].
  - unfold Dict.mem.
    destruct (Dict.get "ExpenseDocuments" d) as [docs |]; cbn; [| apply Hnone].
    destruct docs as [| b | n | f | s | docs | kvs]; cbn.
    + apply Hnone.
    + destruct b; cbn; [discriminate | apply Hnone].
    + destruct (n =? 0)%Z; cbn; [apply Hnone | discriminate].
    + destruct f; cbn; first [apply Hnone | discriminate].
    + destruct (String.eqb s ""); cbn; [apply Hnone |].
      destruct (chars_of s) as [| ch chs]; cbn; [discriminate |].
      destruct (substringb "SummaryFields" ch); cbn; [discriminate |].
      destruct (substringb "LineItemGroups" ch); cbn; [discriminate |].
      apply Hnone.
    + destruct docs as [| doc docs]; cbn; [apply Hnone |].
      apply process_expense_doc_items.
    + destruct kvs; cbn; [apply Hnone | discriminate].
Qed.

Lemma filter_length_lt {A} (f : A -> bool) (l : list A) (x : A) :
  In x l -> f x = false -> length (filter f l) < length l.
Proof.
  induction l as [| y l IH]; cbn; [contradiction |].
  intros [-> | Hin] Hx.
  - rewrite Hx. pose proof (filter_length_le f l). lia.
  - specialize (IH Hin Hx). destruct (f y); cbn; lia.
Qed.

Lemma built_from_named (ls : list pyval) (kept : list pydict) :
  built_from ls kept -> Forall (fun item => Dict.mem "name" item = true) kept.
Proof.
  unfold built_from.
  assert (Hall : Forall (fun li => has_item_field li = true)
                        (filter has_item_field ls))
    by (apply Forall_forall; intros x Hx; apply filter_In in Hx; tauto).
  revert Hall. generalize (filter has_item_field ls) as l.
  intros l Hall H. induction H as [| li item l kept Hb _ IH].
  - constructor.
  - inversion Hall; subst. constructor.
    + rewrite (build_item_name _ _ Hb). assumption.
    + apply IH. assumption.
Qed.

Lemma item_for_db_normalized (item : pydict) :
  normalized_from item (item_for_db item).
Proof.
  unfold normalized_from, item_for_db, Dict.get_default. cbn.
  repeat split; reflexivity.
Qed.

Section PipelineFacts.

Variable rt : Runtime.
Variable aws : Services.

(** *** The runs of the three steps *)

(** The notifier returns normally whatever the mail call does, attempts
    the mail call once and consumes no tick. *)
Lemma send_email_notification_run (rd : receipt_data) (t : ticks) :
  exists line_events,
    send_email_notification rt aws rd t =
      mkRun (inr tt)
            (SendEmail (SES_SENDER_EMAIL aws) [SES_RECIPIENT_EMAIL aws]
                       (email_subject rt rd)
                       (html_body rt rd (email_items_html rt rd))
               :: map Printed line_events)
            t.
Proof.
  unfold send_email_notification, try_except, bind, ses_send_email, print, emit.
  cbn. destruct (send_email aws _ _ _ _) as [e |]; cbn.
  - eexists [_; _]. reflexivity.
  - eexists [_]. reflexivity.
Qed.

(** The store writer reads the clock, attempts one write, and raises
    exactly when the write does. *)
Lemma store_receipt_in_dynamodb_run (rd : receipt_data) (bucket : pyval)
      (key : string) (t : ticks) :
  exists line,
    store_receipt_in_dynamodb rt aws rd bucket key t =
      mkRun (of_outcome
               (put_item aws (DYNAMODB_TABLE aws)
                         (build_db_item rt rd (rt_now rt (clock_reads t)))))
            [PutItem (DYNAMODB_TABLE aws)
                     (build_db_item rt rd (rt_now rt (clock_reads t)));
             Printed line]
            (mkTicks (uuid_draws t) (S (clock_reads t))).
Proof.
  unfold store_receipt_in_dynamodb, try_except, bind, dynamodb_put_item,
    datetime_now, print, emit.
  cbn. destruct (put_item aws _ _) as [e |]; cbn; eexists; reflexivity.
Qed.

(** The processing step succeeds exactly when the analysis call returns
    a response the mapper can read, with the mapper's record. *)
Lemma process_receipt_result (bucket : pyval) (key : string) (t : ticks) :
  result (process_receipt_with_textract rt aws bucket key t) =
    let? resp := analyze_expense aws bucket key in
    extract_receipt resp (initial_receipt rt bucket key t).
Proof.
  unfold process_receipt_with_textract, try_except, bind,
    textract_analyze_expense, uuid4, datetime_now, lift, print, emit.
  cbn. destruct (analyze_expense aws bucket key) as [e | resp]; cbn.
  - reflexivity.
  - unfold initial_receipt.
    destruct (extract_receipt resp _) as [e | rd]; reflexivity.
Qed.

(** The object check raises exactly when [head_object] does, after the
    one call it makes. *)
Lemma verify_object_run (bucket : pyval) (key : string) (t : ticks) :
  exists lines,
    verify_object rt aws bucket key t =
      mkRun (match head_object aws bucket key with
             | None => inr tt
             | Some e =>
                 inl (Exception_ ("Unable to access object " +++ key
                                    +++ " in bucket " +++ py_str rt bucket
                                    +++ ": " +++ str_exn rt e))
             end)
            (HeadObject bucket key :: map Printed lines)
            t.
Proof.
  unfold verify_object, try_except, bind, s3_head_object, print, emit, raise.
  cbn. destruct (head_object aws bucket key) as [e |]; cbn.
  - eexists [_]. reflexivity.
  - eexists [_]. reflexivity.
Qed.

(** *** The coordinator *)

(** C2. When the existence check on the object the event names fails, the
    run calls neither the analysis capability nor the store nor the mail
    capability, and the handler returns status code 500. *)
Theorem missing_object_aborts_with_500
        (event context bucket : pyval) (key : string) (e : exn) (t : ticks) :
  event_location rt event = inr (bucket, key) ->
  head_object aws bucket key = Some e ->
  let r := lambda_handler rt aws event context t in
  Forall (fun ev => is_analysis_call ev = false /\
                    is_store_call ev = false /\
                    is_mail_call ev = false) (events r) /\
  In (HeadObject bucket key) (events r) /\
  exists resp, result r = inr resp /\ statusCode resp = 500%Z.
Proof.
  intros Hloc Hhead r. subst r.
  unfold lambda_handler, handler_body, try_except, bind, lift, verify_object,
    s3_head_object, print, emit, raise, ret.
  cbn. rewrite Hloc. cbn. rewrite Hhead. cbn.
  split; [| split].
  - repeat constructor.
  - right. left. reflexivity.
  - eexists. split; reflexivity.
Qed.

Ltac step :=
  cbn -[String.append extract_receipt html_body email_subject email_items_html
        build_db_item DYNAMODB_TABLE SES_SENDER_EMAIL SES_RECIPIENT_EMAIL
        py_str str_exn].

Ltac run_pipeline :=
  unfold lambda_handler, handler_body, verify_object,
    process_receipt_with_textract, store_receipt_in_dynamodb,
    send_email_notification, try_except, bind, lift, s3_head_object,
    textract_analyze_expense, dynamodb_put_item, ses_send_email, uuid4,
    datetime_now, print, emit, raise, ret;
  step.

(** C1. When the object check, the analysis and the store write succeed
    and the mail call raises, the notifier still returns normally and the
    handler returns the success response, status code 200. *)
Theorem mail_failure_still_reports_success
        (event context bucket : pyval) (key : string) (rd : receipt_data)
        (e : exn) (t : ticks) :
  event_location rt event = inr (bucket, key) ->
  head_object aws bucket key = None ->
  result (process_receipt_with_textract rt aws bucket key t) = inr rd ->
  put_item aws (DYNAMODB_TABLE aws)
           (build_db_item rt rd (rt_now rt (S (clock_reads t)))) = None ->
  send_email aws (SES_SENDER_EMAIL aws) [SES_RECIPIENT_EMAIL aws]
             (email_subject rt rd)
             (html_body rt rd (email_items_html rt rd)) = Some e ->
  let r := lambda_handler rt aws event context t in
  (forall t', result (send_email_notification rt aws rd t') = inr tt) /\
  In (SendEmail (SES_SENDER_EMAIL aws) [SES_RECIPIENT_EMAIL aws]
                (email_subject rt rd)
                (html_body rt rd (email_items_html rt rd))) (events r) /\
  result r = inr (success_response rt) /\
  statusCode (success_response rt) = 200%Z.
Proof.
  intros Hloc Hhead Hproc Hput Hmail r. subst r.
  rewrite process_receipt_result in Hproc.
  destruct (analyze_expense aws bucket key) as [e0 | resp] eqn:Han;
    [discriminate |].
  unfold err_bind, initial_receipt in Hproc.
  split; [| split; [| split]].
  - intros t'. destruct (send_email_notification_run rd t') as [ls ->].
    reflexivity.
  - run_pipeline. rewrite Hloc. step. rewrite Hhead. step. rewrite Han. step.
    rewrite Hproc. step. rewrite Hput. step. rewrite Hmail. step.
    repeat (first [left; reflexivity | right]).
  - run_pipeline. rewrite Hloc. step. rewrite Hhead. step. rewrite Han. step.
    rewrite Hproc. step. rewrite Hput. step. rewrite Hmail. step.
    reflexivity.
  - reflexivity.
Qed.

(** C6. When the store write raises after the analysis succeeded, the
    store writer raises the same exception, the run sends no email, and
    the handler returns status code 500. *)
Theorem store_failure_aborts_without_email
        (event context bucket : pyval) (key : string) (rd : receipt_data)
        (e : exn) (t : ticks) :
  event_location rt event = inr (bucket, key) ->
  head_object aws bucket key = None ->
  result (process_receipt_with_textract rt aws bucket key t) = inr rd ->
  put_item aws (DYNAMODB_TABLE aws)
           (build_db_item rt rd (rt_now rt (S (clock_reads t)))) = Some e ->
  let r := lambda_handler rt aws event context t in
  result (store_receipt_in_dynamodb rt aws rd bucket key (processed t))
    = inl e /\
  Forall (fun ev => is_mail_call ev = false) (events r) /\
  result r = inr (failure_response rt e) /\
  statusCode (failure_response rt e) = 500%Z.
Proof.
  intros Hloc Hhead Hproc Hput r. subst r.
  rewrite process_receipt_result in Hproc.
  destruct (analyze_expense aws bucket key) as [e0 | resp] eqn:Han;
    [discriminate |].
  unfold err_bind, initial_receipt in Hproc.
  split; [| split; [| split]].
  - destruct (store_receipt_in_dynamodb_run rd bucket key (processed t))
      as [line ->].
    step. rewrite Hput. reflexivity.
  - run_pipeline. rewrite Hloc. step. rewrite Hhead. step. rewrite Han. step.
    rewrite Hproc. step. rewrite Hput. step.
    repeat constructor.
  - run_pipeline. rewrite Hloc. step. rewrite Hhead. step. rewrite Han. step.
    rewrite Hproc. step. rewrite Hput. step.
    reflexivity.
  - reflexivity.
Qed.

(** The outer [try] block returns only the success response. *)
Lemma handler_body_returns (event : pyval) (t : ticks) (resp : response) :
  result (handler_body rt aws event t) = inr resp ->
  resp = success_response rt.
Proof.
  run_pipeline.
  destruct (event_location rt event) as [e | [bucket key]]; step;
    [discriminate |].
  destruct (head_object aws bucket key) as [e |]; step; [discriminate |].
  destruct (analyze_expense aws bucket key) as [e | doc]; step;
    [discriminate |].
  destruct (extract_receipt doc _) as [e | rd]; step; [discriminate |].
  destruct (put_item aws _ _) as [e |]; step; [discriminate |].
  destruct (send_email aws _ _ _ _) as [e |]; step;
    intros H; now inversion H.
Qed.

(** The handler returns what its [try] block returns, and the failure
    response of the exception the block raises. *)
Lemma lambda_handler_result (event context : pyval) (t : ticks) :
  result (lambda_handler rt aws event context t) =
    match result (handler_body rt aws event t) with
    | inr resp => inr resp
    | inl e => inr (failure_response rt e)
    end.
Proof.
  unfold lambda_handler, try_except.
  destruct (handler_body rt aws event t) as [[e | resp] evs t']; reflexivity.
Qed.

(** C9. The handler is total: on every event, malformed ones included, it
    returns a response whose status code is 200 or 500 and raises
    nothing.  An exception of the event lookup, of the object check, of
    the processing step or of the store writer yields the 500 response;
    the notifier raises nothing. *)
Theorem lambda_handler_total (event context : pyval) (t : ticks) :
  let r := lambda_handler rt aws event context t in
  (exists resp,
      result r = inr resp /\
      ((resp = success_response rt /\ statusCode resp = 200%Z) \/
       (exists e, resp = failure_response rt e /\ statusCode resp = 500%Z))) /\
  (forall e, result (handler_body rt aws event t) = inl e ->
             result r = inr (failure_response rt e)) /\
  (forall e, event_location rt event = inl e ->
             result r = inr (failure_response rt e)) /\
  (forall bucket key e,
      event_location rt event = inr (bucket, key) ->
      head_object aws bucket key = Some e ->
      result r = inr (failure_response rt (access_error rt bucket key e))) /\
  (forall bucket key e,
      event_location rt event = inr (bucket, key) ->
      head_object aws bucket key = None ->
      result (process_receipt_with_textract rt aws bucket key t) = inl e ->
      result r = inr (failure_response rt e)) /\
  (forall bucket key rd e,
      event_location rt event = inr (bucket, key) ->
      head_object aws bucket key = None ->
      result (process_receipt_with_textract rt aws bucket key t) = inr rd ->
      result (store_receipt_in_dynamodb rt aws rd bucket key (processed t))
        = inl e ->
      result r = inr (failure_response rt e)) /\
  (forall rd t', result (send_email_notification rt aws rd t') = inr tt).
Proof.
  intros r. subst r.
  split; [| split; [| split; [| split; [| split; [| split]]]]].
  - rewrite lambda_handler_result.
    destruct (result (handler_body rt aws event t)) as [e | resp] eqn:E.
    + eexists. split; [reflexivity |]. right. exists e. split; reflexivity.
    + exists resp. split; [reflexivity |]. left.
      apply handler_body_returns in E. subst resp. split; reflexivity.
  - intros e E. rewrite lambda_handler_result, E. reflexivity.
  - intros e Hloc. run_pipeline. rewrite Hloc. reflexivity.
  - intros bucket key e Hloc Hhead. run_pipeline.
    rewrite Hloc. step. rewrite Hhead. reflexivity.
  - intros bucket key e Hloc Hhead Hproc.
    rewrite process_receipt_result in Hproc. unfold initial_receipt in Hproc.
    run_pipeline. rewrite Hloc. step. rewrite Hhead. step.
    destruct (analyze_expense aws bucket key) as [e0 | resp]; cbn in *.
    + now inversion Hproc.
    + rewrite Hproc. reflexivity.
  - intros bucket key rd e Hloc Hhead Hproc Hstore.
    rewrite process_receipt_result in Hproc. unfold initial_receipt in Hproc.
    destruct (store_receipt_in_dynamodb_run rd bucket key (processed t))
      as [line Hrun].
    rewrite Hrun in Hstore. cbn in Hstore.
    run_pipeline. rewrite Hloc. step. rewrite Hhead. step.
    destruct (analyze_expense aws bucket key) as [e0 | resp]; cbn in *;
      [discriminate |].
    rewrite Hproc. step.
    destruct (put_item aws _ _) as [e1 |]; cbn in *; [| discriminate].
    now inversion Hstore.
  - intros rd t'. destruct (send_email_notification_run rd t') as [ls ->].
    reflexivity.
Qed.

(** *** The mapper inside the processing step *)

(** C3. When the analyzer response holds no expense documents (the key is
    absent or its list is empty), the processing step returns normally,
    with the record of defaults: the processing date, vendor "Unknown",
    total "0.00" and no items. *)
Theorem no_expense_documents_gives_defaults
        (bucket : pyval) (key : string) (d : pydict) (t : ticks) :
  analyze_expense aws bucket key = inr (PDict d) ->
  Dict.get "ExpenseDocuments" d = None \/
  Dict.get "ExpenseDocuments" d = Some (PList []) ->
  exists rd,
    result (process_receipt_with_textract rt aws bucket key t) = inr rd /\
    date rd = PStr (rt_strftime_Ymd rt (rt_now rt (clock_reads t))) /\
    vendor rd = PStr "Unknown" /\
    total rd = PStr "0.00" /\
    items rd = [].
Proof.
  intros Han Hdocs. exists (initial_receipt rt bucket key t).
  rewrite process_receipt_result, Han. step.
  unfold extract_receipt, has_expense_documents. step. unfold Dict.mem.
  destruct Hdocs as [-> | ->]; step; repeat split; reflexivity.
Qed.

(** C4. The items of the record are built, in order, from exactly the
    input line items that have an ITEM-tagged field: a line item without
    one is left out.  So the record has at most as many items as the
    input has line items, and fewer when some line item has no ITEM
    field. *)
Theorem nameless_line_items_are_dropped
        (bucket : pyval) (key : string) (resp : pyval) (rd : receipt_data)
        (t : ticks) :
  analyze_expense aws bucket key = inr resp ->
  result (process_receipt_with_textract rt aws bucket key t) = inr rd ->
  built_from (input_line_items resp) (items rd) /\
  Forall (fun item => Dict.mem "name" item = true) (items rd) /\
  length (items rd) = length (filter has_item_field (input_line_items resp)) /\
  length (items rd) <= length (input_line_items resp) /\
  ((exists line_item,
       In line_item (input_line_items resp) /\
       has_item_field line_item = false) ->
   length (items rd) < length (input_line_items resp)).
Proof.
  intros Han Hproc. rewrite process_receipt_result, Han in Hproc. cbn in Hproc.
  destruct (extract_receipt_items _ _ _ Hproc) as (kept & B & Hi & _).
  cbn in Hi. subst kept.
  assert (Hlen : length (items rd) =
                 length (filter has_item_field (input_line_items resp)))
    by (symmetry; apply (Forall2_length B)).
  split; [exact B |].
  split; [apply (built_from_named _ _ B) |].
  split; [exact Hlen |].
  rewrite Hlen. split.
  - apply filter_length_le.
  - intros (li & Hin & Hno). apply (filter_length_lt _ _ li); assumption.
Qed.

(** The mapper on the receipt of Cafe X. *)
Lemma extract_cafe_receipt (rd : receipt_data) :
  extract_receipt cafe_response rd =
    inr (mkReceipt (receipt_id rd)
                   (PStr "2024-03-01")
                   (PStr "Cafe X")
                   (PStr "12.50")
                   (items rd ++ [[("name", PStr "Coffee");
                                  ("price", PStr "4.00");
                                  ("quantity", PStr "2")]])
                   (s3_path rd)).
Proof. reflexivity. Qed.

(** C5. For the receipt of Cafe X (summary fields TOTAL "12.50",
    VENDOR_NAME "Cafe X", INVOICE_RECEIPT_DATE "2024-03-01"; one line item
    with ITEM "Coffee", PRICE "4.00", QUANTITY "2") the run makes one
    store write, of a record with vendor "Cafe X", date "2024-03-01",
    total "12.50" and the single item Coffee, 4.00, 2, every value the
    string of the response. *)
Theorem cafe_receipt_is_stored_verbatim
        (event context bucket : pyval) (key : string) (t : ticks) :
  event_location rt event = inr (bucket, key) ->
  head_object aws bucket key = None ->
  analyze_expense aws bucket key = inr cafe_response ->
  let r := lambda_handler rt aws event context t in
  exists item,
    filter is_store_call (events r) = [PutItem (DYNAMODB_TABLE aws) item] /\
    db_vendor item = PStr "Cafe X" /\
    db_date item = PStr "2024-03-01" /\
    db_total item = PStr "12.50" /\
    db_items item = [[("name", PStr "Coffee");
                      ("price", PStr "4.00");
                      ("quantity", PStr "2")]].
Proof.
  intros Hloc Hhead Han r. subst r. eexists.
  run_pipeline. rewrite Hloc. step. rewrite Hhead. step. rewrite Han. step.
  rewrite extract_cafe_receipt. step.
  destruct (put_item aws _ _) as [e |]; step.
  - repeat split; reflexivity.
  - destruct (send_email aws _ _ _ _) as [e |]; step; repeat split; reflexivity.
Qed.

(** *** The store writer *)

(** C7. For every receipt record the store writer makes exactly one
    write, of an item keyed by the record's [receipt_id] and [date],
    carrying the clock's reading as [processed_timestamp], in which every
    line item has the three fields name, price and quantity, a missing
    one set to "Unknown Item", "0.00" and "1". *)
Theorem store_writes_one_normalized_item
        (rd : receipt_data) (bucket : pyval) (key : string) (t : ticks) :
  let r := store_receipt_in_dynamodb rt aws rd bucket key t in
  exists item,
    filter is_store_call (events r) = [PutItem (DYNAMODB_TABLE aws) item] /\
    (db_receipt_id item, db_date item) = (receipt_id rd, date rd) /\
    db_vendor item = vendor rd /\
    db_total item = total rd /\
    db_s3_path item = s3_path rd /\
    db_processed_timestamp item = rt_isoformat rt (rt_now rt (clock_reads t)) /\
    Forall2 normalized_from (items rd) (db_items item).
Proof.
  intros r. subst r.
  destruct (store_receipt_in_dynamodb_run rd bucket key t) as [line ->].
  eexists. step. repeat split.
  unfold build_db_item. cbn [db_items].
  induction (items rd) as [| item l IH]; cbn [map]; constructor.
  - apply item_for_db_normalized.
  - exact IH.
Qed.

(** *** The receipt identifier *)

Ltac in_trace H :=
  cbn in H;
  repeat (destruct H as [H | H]; [try discriminate H |]);
  try contradiction.



End PipelineFacts.


(** *** Line items whose name has no text *)

Lemma line_item_field_step_keeps_name (field : pyval) (item item' : pydict) :
  line_item_field_step field item = inr item' ->
  tagged "ITEM" field = false ->
  Dict.get "name" item' = Dict.get "name" item.
Proof.
  unfold line_item_field_step.
  destruct (field_type_and_value field) as [e | [ty v]] eqn:E; cbn;
    [discriminate |].
  assert (HI : py_eq_str ty "ITEM" = tagged "ITEM" field)
    by (apply (field_type_tagged _ _ v); [discriminate | exact E]).
  rewrite HI. intros H Hno. rewrite Hno in H.
  destruct (py_eq_str ty "PRICE");
    [| destruct (py_eq_str ty "QUANTITY")];
    inversion H; try reflexivity;
    apply dict_get_set_other; discriminate.
Qed.

Lemma for_each_fields_keep_name (fs : list pyval) (item item' : pydict) :
  for_each fs line_item_field_step item = inr item' ->
  existsb (tagged "ITEM") fs = false ->
  Dict.get "name" item' = Dict.get "name" item.
Proof.
  revert item. induction fs as [| f fs IH]; intros item; cbn.
  - intros H _. now inversion H.
  - destruct (line_item_field_step f item) as [e | item1] eqn:E; cbn;
      [discriminate |].
    intros H Hno. apply orb_false_elim in Hno. destruct Hno as [Hf Hfs].
    rewrite (IH _ H Hfs). apply (line_item_field_step_keeps_name _ _ _ E Hf).
Qed.

Lemma line_item_field_step_total (field : pyval) (item : pydict) :
  well_formed_field field = true ->
  exists item', line_item_field_step field item = inr item'.
Proof.
  intros Hwf. destruct (field_type_and_value_total _ Hwf) as (ty & v & E).
  unfold line_item_field_step. rewrite E. cbn.
  destruct (py_eq_str ty "ITEM");
    [| destruct (py_eq_str ty "PRICE");
       [| destruct (py_eq_str ty "QUANTITY")]]; eauto.
Qed.

Lemma for_each_fields_total (fs : list pyval) (item : pydict) :
  Forall (fun f => well_formed_field f = true) fs ->
  exists item', for_each fs line_item_field_step item = inr item'.
Proof.
  intros Hwf. revert item. induction Hwf as [| f fs Hf _ IH]; intros item; cbn.
  - eauto.
  - destruct (line_item_field_step_total f item Hf) as [item1 ->]. cbn.
    apply IH.
Qed.

(** The item built from a line item whose last ITEM-tagged field has no
    detected text has the empty string as its name. *)
Lemma build_item_empty_name
      (d fd td : pydict) (pre post : list pyval) (item : pydict) :
  Dict.get "LineItemExpenseFields" d = Some (PList (pre ++ PDict fd :: post)) ->
  Dict.get "Type" fd = Some (PDict td) ->
  Dict.get "Text" td = Some (PStr "ITEM") ->
  Dict.get "ValueDetection" fd = None \/
  (exists vd,
      Dict.get "ValueDetection" fd = Some (PDict vd) /\
      (Dict.get "Text" vd = None \/ Dict.get "Text" vd = Some (PStr ""))) ->
  existsb (tagged "ITEM") post = false ->
  build_item (PDict d) = inr item ->
  Dict.get "name" item = Some (PStr "") /\ has_item_field (PDict d) = true.
Proof.
  intros Hfields Hty Htext Hvalue Hpost Hbuild.
  assert (Estep : forall item1,
             line_item_field_step (PDict fd) item1
             = inr (Dict.set "name" (PStr "") item1)).
  { intros item1.
    unfold line_item_field_step, field_type_and_value, py_get,
      Dict.get_default.
    rewrite Hty. cbn. rewrite Htext.
    destruct Hvalue as [-> | (vd & -> & [-> | ->])]; reflexivity. }
  split.
  - unfold build_item, py_get, Dict.get_default in Hbuild.
    rewrite Hfields in Hbuild. cbn [err_bind py_iter] in Hbuild.
    rewrite for_each_app in Hbuild.
    destruct (for_each pre line_item_field_step []) as [e | item1];
      cbn [err_bind for_each] in Hbuild; [discriminate |].
    rewrite Estep in Hbuild. cbn [err_bind] in Hbuild.
    rewrite (for_each_fields_keep_name _ _ _ Hbuild Hpost).
    apply dict_get_set_same.
  - unfold has_item_field, dict_field, list_elems. rewrite Hfields.
    rewrite existsb_app. cbn [existsb].
    assert (Ht : tagged "ITEM" (PDict fd) = true).
    { unfold tagged, field_tag, dict_field. rewrite Hty, Htext. reflexivity. }
    rewrite Ht. apply orb_true_iff. right. reflexivity.
Qed.

(** ** Further properties of the mapper *)

Lemma py_eq_str_true (v : pyval) (s : string) :
  py_eq_str v s = true -> v = PStr s.
Proof.
  destruct v; cbn; try discriminate.
  intros H. apply String.eqb_eq in H. now subst.
Qed.

(** The value the code reads off a field is the field's text. *)
Lemma field_value_text (field ty v : pyval) :
  field_type_and_value field = inr (ty, v) -> v = field_text field.
Proof.
  destruct field as [| | | | | | fd]; try discriminate.
  unfold field_type_and_value, field_text, py_get, Dict.get_default. cbn.
  destruct (Dict.get "Type" fd) as [[| | | | | | td] |]; cbn;
    try discriminate;
    destruct (Dict.get "ValueDetection" fd) as [[| | | | | | vd] |]; cbn;
    try discriminate; intros H; inversion H; reflexivity.
Qed.

(** A field that is not well formed cannot be read. *)
Lemma field_not_well_formed (field : pyval) :
  well_formed_field field = false ->
  field_type_and_value field = inl AttributeError.
Proof.
  destruct field as [| | | | | | fd]; try reflexivity.
  unfold well_formed_field, field_type_and_value, py_get, Dict.get_default.
  destruct (Dict.get "Type" fd) as [[| | | | | | td] |]; cbn;
    try reflexivity;
    destruct (Dict.get "ValueDetection" fd) as [[| | | | | | vd] |]; cbn;
    try reflexivity; discriminate.
Qed.

Lemma tagged_exclusive (a b : string) (field : pyval) :
  tagged a field = true -> a <> b -> tagged b field = false.
Proof.
  unfold tagged. destruct (field_tag field) as [[| | | | s | |] |];
    try discriminate.
  intros Ha Hne. apply String.eqb_eq in Ha. subst s.
  apply String.eqb_neq. exact Hne.
Qed.

(** One summary field overwrites the entry its tag names and nothing
    else. *)
Lemma summary_field_step_spec (field : pyval) (rd rd' : receipt_data) :
  summary_field_step field rd = inr rd' ->
  rd' = mkReceipt
          (receipt_id rd)
          (if tagged "INVOICE_RECEIPT_DATE" field then field_text field
           else date rd)
          (if tagged "VENDOR_NAME" field then field_text field else vendor rd)
          (if tagged "TOTAL" field then field_text field else total rd)
          (items rd)
          (s3_path rd).
Proof.
  unfold summary_field_step.
  destruct (field_type_and_value field) as [e | [ty v]] eqn:E;
    cbn [err_bind fst snd]; [discriminate |].
  rewrite (field_type_tagged _ _ v "TOTAL") by (discriminate || exact E).
  rewrite (field_type_tagged _ _ v "INVOICE_RECEIPT_DATE")
    by (discriminate || exact E).
  rewrite (field_type_tagged _ _ v "VENDOR_NAME") by (discriminate || exact E).
  rewrite <- (field_value_text _ _ _ E).
  destruct (tagged "TOTAL" field) eqn:Ht.
  - rewrite (tagged_exclusive "TOTAL" "INVOICE_RECEIPT_DATE" _ Ht)
      by discriminate.
    rewrite (tagged_exclusive "TOTAL" "VENDOR_NAME" _ Ht) by discriminate.
    intros H. inversion H. reflexivity.
  - destruct (tagged "INVOICE_RECEIPT_DATE" field) eqn:Hd.
    + rewrite (tagged_exclusive "INVOICE_RECEIPT_DATE" "VENDOR_NAME" _ Hd)
        by discriminate.
      intros H. inversion H. reflexivity.
    + destruct (tagged "VENDOR_NAME" field);
        intros H; inversion H; subst;
        first [reflexivity | destruct rd'; reflexivity].
Qed.

(** The loop over the summary fields leaves each entry at the text of the
    last field carrying its tag. *)
Lemma for_each_summary_spec (fs : list pyval) (rd rd' : receipt_data) :
  for_each fs summary_field_step rd = inr rd' ->
  rd' = mkReceipt
          (receipt_id rd)
          (last_tagged "INVOICE_RECEIPT_DATE" fs (date rd))
          (last_tagged "VENDOR_NAME" fs (vendor rd))
          (last_tagged "TOTAL" fs (total rd))
          (items rd)
          (s3_path rd).
Proof.
  revert rd. induction fs as [| f fs IH]; intros rd; cbn [for_each].
  - intros H. inversion H. destruct rd'. reflexivity.
  - destruct (summary_field_step f rd) as [e | rd1] eqn:E; cbn [err_bind];
      [discriminate |].
    intros H. apply IH in H. apply summary_field_step_spec in E.
    subst rd1. exact H.
Qed.

Lemma last_tagged_absent (tag : string) (fs : list pyval) (default : pyval) :
  existsb (tagged tag) fs = false -> last_tagged tag fs default = default.
Proof.
  unfold last_tagged. revert default.
  induction fs as [| f fs IH]; intros default; cbn; [reflexivity |].
  intros H. apply orb_false_elim in H. destruct H as [-> H]. apply IH, H.
Qed.

(** The line items change only the items of the record. *)
Lemma process_line_items_header (expense_doc : pyval) (rd rd' : receipt_data) :
  process_line_items expense_doc rd = inr rd' ->
  date rd' = date rd /\ vendor rd' = vendor rd /\ total rd' = total rd /\
  s3_path rd' = s3_path rd.
Proof.
  intros H. destruct (process_line_items_items _ _ _ H) as (kept & _ & ->).
  repeat split; reflexivity.
Qed.


(** *** Which part of the response is read *)

Lemma extract_receipt_first_document
      (d : pydict) (expense_doc : pyval) (rest : list pyval) (rd : receipt_data) :
  Dict.get "ExpenseDocuments" d = Some (PList (expense_doc :: rest)) ->
  extract_receipt (PDict d) rd = process_expense_doc expense_doc rd.
Proof.
  intros H.
  unfold extract_receipt, has_expense_documents, py_contains, py_getitem,
    Dict.mem.
  rewrite H. reflexivity.
Qed.

(** X1. Only the first expense document is read: two responses whose
    lists of expense documents start with the same document give the same
    result, which is the processing of that document; later documents
    and the other keys of the response have no effect. *)
Theorem only_first_document_is_read
        (d d' : pydict) (expense_doc : pyval) (rest rest' : list pyval)
        (rd : receipt_data) :
  Dict.get "ExpenseDocuments" d = Some (PList (expense_doc :: rest)) ->
  Dict.get "ExpenseDocuments" d' = Some (PList (expense_doc :: rest')) ->
  extract_receipt (PDict d) rd = process_expense_doc expense_doc rd /\
  extract_receipt (PDict d) rd = extract_receipt (PDict d') rd.
Proof.
  intros H H'. split.
  - apply (extract_receipt_first_document d _ rest), H.
  - rewrite (extract_receipt_first_document d _ rest rd H).
    rewrite (extract_receipt_first_document d' _ rest' rd H').
    reflexivity.
Qed.

(** *** Well-formed and malformed responses *)

Lemma summary_field_step_total (field : pyval) (rd : receipt_data) :
  well_formed_field field = true ->
  exists rd', summary_field_step field rd = inr rd'.
Proof.
  intros Hwf. destruct (field_type_and_value_total _ Hwf) as (ty & v & E).
  unfold summary_field_step. rewrite E. cbn [err_bind fst snd].
  destruct (py_eq_str ty "TOTAL");
    [| destruct (py_eq_str ty "INVOICE_RECEIPT_DATE");
       [| destruct (py_eq_str ty "VENDOR_NAME")]]; eauto.
Qed.

Lemma for_each_total {A S} (p : A -> bool) (body : A -> S -> Err S)
      (xs : list A) (s : S) :
  (forall x s0, p x = true -> exists s1, body x s0 = inr s1) ->
  forallb p xs = true ->
  exists s', for_each xs body s = inr s'.
Proof.
  intros Hbody. revert s. induction xs as [| x xs IH]; intros s; cbn.
  - eauto.
  - intros H. apply andb_prop in H. destruct H as [Hx Hxs].
    destruct (Hbody x s Hx) as [s1 ->]. cbn. apply IH, Hxs.
Qed.

(** A loop whose body raises [e] on every element that fails [p], and
    returns on the others, raises [e] when some element fails [p]. *)
Lemma for_each_raises {A S} (p : A -> bool) (body : A -> S -> Err S)
      (e : exn) (xs : list A) (s : S) :
  (forall x s0, p x = true -> exists s1, body x s0 = inr s1) ->
  (forall x s0, p x = false -> body x s0 = inl e) ->
  forallb p xs = false ->
  for_each xs body s = inl e.
Proof.
  intros Hok Hbad. revert s. induction xs as [| x xs IH]; intros s; cbn.
  - discriminate.
  - destruct (p x) eqn:Hx; cbn.
    + intros H. destruct (Hok x s Hx) as [s1 ->]. cbn. apply IH, H.
    + intros _. rewrite (Hbad x s Hx). reflexivity.
Qed.

Lemma summary_field_step_malformed (field : pyval) (rd : receipt_data) :
  well_formed_field field = false ->
  summary_field_step field rd = inl AttributeError.
Proof.
  intros H. unfold summary_field_step.
  rewrite (field_not_well_formed _ H). reflexivity.
Qed.

Lemma build_item_total (line_item : pyval) :
  well_formed_line_item line_item = true ->
  exists item, build_item line_item = inr item.
Proof.
  destruct line_item as [| | | | | | d]; try discriminate.
  unfold well_formed_line_item, build_item, py_get, Dict.get_default.
  destruct (Dict.get "LineItemExpenseFields" d) as [[| | | | | fs |] |];
    cbn; try discriminate.
  - apply (for_each_total well_formed_field).
    intros x s0. apply line_item_field_step_total.
  - eauto.
Qed.

Lemma line_item_step_total (line_item : pyval) (rd : receipt_data) :
  well_formed_line_item line_item = true ->
  exists rd', line_item_step line_item rd = inr rd'.
Proof.
  intros H. destruct (build_item_total _ H) as [item E].
  unfold line_item_step. rewrite E. cbn.
  destruct (Dict.mem "name" item); eauto.
Qed.

Lemma group_step_total (group : pyval) (rd : receipt_data) :
  well_formed_group group = true ->
  exists rd', group_step group rd = inr rd'.
Proof.
  destruct group as [| | | | | | d]; try discriminate.
  unfold well_formed_group, group_step, py_contains, py_getitem, Dict.mem.
  destruct (Dict.get "LineItems" d) as [[| | | | | ls |] |];
    cbn; try discriminate.
  - apply (for_each_total well_formed_line_item).
    intros x s0. apply line_item_step_total.
  - eauto.
Qed.

Lemma process_expense_doc_total (expense_doc : pyval) (rd : receipt_data) :
  well_formed_document expense_doc = true ->
  exists rd', process_expense_doc expense_doc rd = inr rd'.
Proof.
  destruct expense_doc as [| | | | | | d]; try discriminate.
  unfold well_formed_document. intros H. apply andb_prop in H.
  destruct H as [Hs Hg].
  assert (E1 : exists rd1, process_summary_fields (PDict d) rd = inr rd1).
  { unfold process_summary_fields, py_contains, py_getitem, Dict.mem.
    destruct (Dict.get "SummaryFields" d) as [[| | | | | fs |] |];
      cbn in *; try discriminate.
    - apply (for_each_total well_formed_field); [| exact Hs].
      intros x s0. apply summary_field_step_total.
    - eauto. }
  destruct E1 as [rd1 E1]. unfold process_expense_doc. rewrite E1.
  cbn [err_bind].
  unfold process_line_items, py_contains, py_getitem, Dict.mem.
  destruct (Dict.get "LineItemGroups" d) as [[| | | | | gs |] |];
    cbn in *; try discriminate.
  - apply (for_each_total well_formed_group); [| exact Hg].
    intros x s0. apply group_step_total.
  - eauto.
Qed.

(** The mapper returns a record on every well-formed response. *)
Lemma extract_receipt_total (resp : pyval) (rd : receipt_data) :
  well_formed_response resp = true ->
  exists rd', extract_receipt resp rd = inr rd'.
Proof.
  destruct resp as [| | | | | | d]; try discriminate.
  unfold well_formed_response.
  destruct (Dict.get "ExpenseDocuments" d) as [docs |] eqn:E.
  - destruct docs as [| | | | | [| doc rest] |]; try discriminate.
    + intros _. exists rd.
      unfold extract_receipt, has_expense_documents, py_contains, py_getitem,
        Dict.mem.
      rewrite E. reflexivity.
    + intros H.
      rewrite (extract_receipt_first_document d doc rest rd E).
      apply process_expense_doc_total, H.
  - intros _. exists rd.
    unfold extract_receipt, has_expense_documents, py_contains, Dict.mem.
    rewrite E. reflexivity.
Qed.

(** *** The entries of an item *)

(** One expense field sets the entry its tag names and nothing else. *)
Lemma line_item_field_step_spec (field : pyval) (item item' : pydict) :
  line_item_field_step field item = inr item' ->
  Dict.get "name" item' =
    (if tagged "ITEM" field then Some (field_text field)
     else Dict.get "name" item) /\
  Dict.get "price" item' =
    (if tagged "PRICE" field then Some (field_text field)
     else Dict.get "price" item) /\
  Dict.get "quantity" item' =
    (if tagged "QUANTITY" field then Some (field_text field)
     else Dict.get "quantity" item) /\
  (forall k, k <> "name" -> k <> "price" -> k <> "quantity" ->
             Dict.get k item' = Dict.get k item).
Proof.
  unfold line_item_field_step.
  destruct (field_type_and_value field) as [e | [ty v]] eqn:E;
    cbn [err_bind fst snd]; [discriminate |].
  rewrite (field_type_tagged _ _ v "ITEM") by (discriminate || exact E).
  rewrite (field_type_tagged _ _ v "PRICE") by (discriminate || exact E).
  rewrite (field_type_tagged _ _ v "QUANTITY") by (discriminate || exact E).
  rewrite <- (field_value_text _ _ _ E).
  destruct (tagged "ITEM" field) eqn:Hi.
  - rewrite (tagged_exclusive "ITEM" "PRICE" _ Hi) by discriminate.
    rewrite (tagged_exclusive "ITEM" "QUANTITY" _ Hi) by discriminate.
    intros H. inversion H. repeat split.
    + apply dict_get_set_same.
    + apply dict_get_set_other. discriminate.
    + apply dict_get_set_other. discriminate.
    + intros k Hn _ _. apply dict_get_set_other, Hn.
  - destruct (tagged "PRICE" field) eqn:Hp.
    + rewrite (tagged_exclusive "PRICE" "QUANTITY" _ Hp) by discriminate.
      intros H. inversion H. repeat split.
      * apply dict_get_set_other. discriminate.
      * apply dict_get_set_same.
      * apply dict_get_set_other. discriminate.
      * intros k _ Hn _. apply dict_get_set_other, Hn.
    + destruct (tagged "QUANTITY" field); intros H; inversion H; repeat split.
      * apply dict_get_set_other. discriminate.
      * apply dict_get_set_other. discriminate.
      * apply dict_get_set_same.
      * intros k _ _ Hn. apply dict_get_set_other, Hn.
Qed.

Lemma for_each_fields_spec (fs : list pyval) (item item' : pydict) :
  for_each fs line_item_field_step item = inr item' ->
  Dict.get "name" item' =
    fold_left (fun acc f => if tagged "ITEM" f then Some (field_text f) else acc)
              fs (Dict.get "name" item) /\
  Dict.get "price" item' =
    fold_left (fun acc f => if tagged "PRICE" f then Some (field_text f) else acc)
              fs (Dict.get "price" item) /\
  Dict.get "quantity" item' =
    fold_left (fun acc f =>
                 if tagged "QUANTITY" f then Some (field_text f) else acc)
              fs (Dict.get "quantity" item) /\
  (forall k, k <> "name" -> k <> "price" -> k <> "quantity" ->
             Dict.get k item' = Dict.get k item).
Proof.
  revert item. induction fs as [| f fs IH]; intros item; cbn [for_each fold_left].
  - intros H. inversion H. repeat split.
  - destruct (line_item_field_step f item) as [e | item1] eqn:E;
      cbn [err_bind]; [discriminate |].
    intros H. destruct (IH _ H) as (Hn & Hp & Hq & Ho).
    destruct (line_item_field_step_spec _ _ _ E) as (Hn1 & Hp1 & Hq1 & Ho1).
    rewrite Hn, Hp, Hq, Hn1, Hp1, Hq1. repeat split.
    intros k H1 H2 H3. rewrite (Ho k H1 H2 H3). apply (Ho1 k H1 H2 H3).
Qed.

(** X2. The item built from a line item holds, under name, price and
    quantity, the text of the last field tagged ITEM, PRICE and QUANTITY;
    an entry is absent when no field carries its tag, and the item has no
    other entry. *)
Theorem item_entries_are_the_last_tagged_texts
        (line_item : pyval) (item : pydict) :
  build_item line_item = inr item ->
  Dict.get "name" item = last_tagged_opt "ITEM" (expense_fields line_item) /\
  Dict.get "price" item = last_tagged_opt "PRICE" (expense_fields line_item) /\
  Dict.get "quantity" item =
    last_tagged_opt "QUANTITY" (expense_fields line_item) /\
  (forall k, k <> "name" -> k <> "price" -> k <> "quantity" ->
             Dict.get k item = None).
Proof.
  assert (Hempty : forall item0 : pydict,
             @inr exn pydict [] = inr item0 ->
             Dict.get "name" item0 = None /\ Dict.get "price" item0 = None /\
             Dict.get "quantity" item0 = None /\
             (forall k, k <> "name" -> k <> "price" -> k <> "quantity" ->
                        Dict.get k item0 = None)).
  { intros item0 H. inversion H. repeat split. }
  unfold build_item, expense_fields, last_tagged_opt.
  destruct line_item as [| | | | | | d]; try discriminate.
  cbn [py_get dict_field err_bind]. unfold Dict.get_default.
  destruct (Dict.get "LineItemExpenseFields" d) as [fields |];
    cbn [err_bind py_iter list_elems for_each]; [| apply Hempty].
  destruct fields as [| | | | s | xs | kvs]; try discriminate;
    cbn [err_bind py_iter list_elems fold_left].
  - intros H.
    assert (Hs : chars_of s = []).
    { eapply for_each_strings_rejected; [| exact H].
      intros x s0. eexists. unfold line_item_field_step.
      rewrite field_type_and_value_string. reflexivity. }
    rewrite Hs in H. apply Hempty, H.
  - apply for_each_fields_spec.
  - intros H.
    assert (Hs : Dict.keys kvs = []).
    { eapply for_each_strings_rejected; [| exact H].
      intros x s0. eexists. unfold line_item_field_step.
      rewrite field_type_and_value_string. reflexivity. }
    rewrite Hs in H. apply Hempty, H.
Qed.

(** *** What the mapper keeps of the record *)

(** The mapper either leaves the record as it is or processes one
    expense document. *)
Lemma extract_receipt_cases (resp : pyval) (rd rd' : receipt_data) :
  extract_receipt resp rd = inr rd' ->
  rd' = rd \/ exists expense_doc, process_expense_doc expense_doc rd = inr rd'.
Proof.
  assert (Hnone : @inr exn receipt_data rd = inr rd' ->
                  rd' = rd \/
                  exists expense_doc,
                    process_expense_doc expense_doc rd = inr rd')
    by (intros H; inversion H; left; reflexivity).
  unfold extract_receipt, has_expense_documents.
  destruct resp as [| | | | s | xs | d]; try discriminate;
    cbn [py_contains err_bind].
  - destruct (substringb "ExpenseDocuments" s); cbn; [discriminate | exact Hnone].
  - destruct (existsb _ xs); cbn; [discriminate | exact Hnone].
  - unfold Dict.mem, py_getitem.
    destruct (Dict.get "ExpenseDocuments" d) as [docs |]; cbn [err_bind];
      [| exact Hnone].
    destruct (py_truthy docs); [| exact Hnone].
    destruct (py_getitem0 docs) as [e | doc]; cbn [err_bind]; [discriminate |].
    intros H. right. exists doc. exact H.
Qed.

Lemma process_summary_fields_s3_path
      (expense_doc : pyval) (rd rd' : receipt_data) :
  process_summary_fields expense_doc rd = inr rd' -> s3_path rd' = s3_path rd.
Proof.
  unfold process_summary_fields.
  destruct (py_contains "SummaryFields" expense_doc) as [e | b]; cbn;
    [discriminate |].
  destruct b.
  - destruct (py_getitem expense_doc "SummaryFields") as [e | fields]; cbn;
      [discriminate |].
    destruct (py_iter fields) as [e | fs]; cbn; [discriminate |].
    intros H. apply for_each_summary_spec in H. subst rd'. reflexivity.
  - intros H. now inversion H.
Qed.

(** The mapper never changes the reference to the uploaded object. *)
Lemma extract_receipt_s3_path (resp : pyval) (rd rd' : receipt_data) :
  extract_receipt resp rd = inr rd' -> s3_path rd' = s3_path rd.
Proof.
  intros H. destruct (extract_receipt_cases _ _ _ H) as [-> | [doc Hdoc]];
    [reflexivity |].
  unfold process_expense_doc in Hdoc.
  destruct (process_summary_fields doc rd) as [e | rd1] eqn:E; cbn in Hdoc;
    [discriminate |].
  destruct (process_line_items_header _ _ _ Hdoc) as (_ & _ & _ & ->).
  apply (process_summary_fields_s3_path _ _ _ E).
Qed.

Lemma append_empty_r (a : string) : a +++ "" = a.
Proof. induction a as [| c a IH]; cbn; congruence. Qed.

Lemma append_assoc (a b c : string) : (a +++ b) +++ c = a +++ (b +++ c).
Proof. induction a as [| x a IH]; cbn; congruence. Qed.

(** Joining lines with the empty separator appends them. *)
Lemma concat_cons (x : string) (l : list string) :
  String.concat "" (x :: l) = x +++ String.concat "" l.
Proof.
  destruct l as [| y l]; cbn [String.concat].
  - symmetry. apply append_empty_r.
  - reflexivity.
Qed.

(** [fold_left] of appends is the accumulator followed by the joined
    lines. *)
Lemma fold_left_append {A} (f : A -> string) (l : list A) (acc : string) :
  fold_left (fun a x => a +++ f x) l acc = acc +++ String.concat "" (map f l).
Proof.
  revert acc. induction l as [| x l IH]; intros acc; cbn [fold_left map].
  - symmetry. apply append_empty_r.
  - rewrite IH, concat_cons, append_assoc. reflexivity.
Qed.

Section PipelineCoverage.

Variable rt : Runtime.
Variable aws : Services.

Ltac step :=
  cbn -[String.append extract_receipt html_body email_subject email_items_html
        build_db_item DYNAMODB_TABLE SES_SENDER_EMAIL SES_RECIPIENT_EMAIL
        py_str str_exn].

Ltac run_pipeline :=
  unfold lambda_handler, handler_body, verify_object,
    process_receipt_with_textract, store_receipt_in_dynamodb,
    send_email_notification, try_except, bind, lift, s3_head_object,
    textract_analyze_expense, dynamodb_put_item, ses_send_email, uuid4,
    datetime_now, print, emit, raise, ret;
  step.

Ltac in_trace H :=
  cbn in H;
  repeat (destruct H as [H | H]; [try discriminate H |]);
  try contradiction.

(** X3. After the summary fields of the first expense document are read,
    total, vendor and date hold the text of the last field tagged TOTAL,
    VENDOR_NAME and INVOICE_RECEIPT_DATE, and keep "0.00", "Unknown" and
    the processing date when no field carries the tag; in particular a
    summary without a VENDOR_NAME field gives vendor "Unknown". *)
Theorem summary_entries_are_the_last_tagged_texts
        (bucket : pyval) (key : string) (d dd : pydict)
        (rest fs : list pyval) (rd : receipt_data) (t : ticks) :
  analyze_expense aws bucket key = inr (PDict d) ->
  Dict.get "ExpenseDocuments" d = Some (PList (PDict dd :: rest)) ->
  Dict.get "SummaryFields" dd = Some (PList fs) ->
  result (process_receipt_with_textract rt aws bucket key t) = inr rd ->
  total rd = last_tagged "TOTAL" fs (PStr "0.00") /\
  vendor rd = last_tagged "VENDOR_NAME" fs (PStr "Unknown") /\
  date rd = last_tagged "INVOICE_RECEIPT_DATE" fs
              (PStr (rt_strftime_Ymd rt (rt_now rt (clock_reads t)))) /\
  (existsb (tagged "VENDOR_NAME") fs = false -> vendor rd = PStr "Unknown").
Proof.
  intros Han Hdocs Hsf Hproc.
  rewrite process_receipt_result, Han in Hproc. cbn [err_bind] in Hproc.
  rewrite (extract_receipt_first_document d _ rest _ Hdocs) in Hproc.
  unfold process_expense_doc in Hproc.
  destruct (process_summary_fields (PDict dd) _) as [e | rd1] eqn:E;
    cbn [err_bind] in Hproc; [discriminate |].
  destruct (process_line_items_header _ _ _ Hproc) as (Hd & Hv & Ht & _).
  unfold process_summary_fields, py_contains, py_getitem, Dict.mem in E.
  rewrite Hsf in E. cbn [err_bind py_iter] in E.
  apply for_each_summary_spec in E. subst rd1.
  cbn in Hd, Hv, Ht. rewrite Hd, Hv, Ht.
  repeat split. intros Hno. apply last_tagged_absent, Hno.
Qed.

(** X4. A summary field that is not a dict, or whose Type or
    ValueDetection is present but not a dict (a null, say), makes the
    processing step raise AttributeError: the [{}] default covers a
    missing key only. *)
Theorem malformed_summary_field_raises
        (bucket : pyval) (key : string) (d dd : pydict)
        (rest fs : list pyval) (t : ticks) :
  analyze_expense aws bucket key = inr (PDict d) ->
  Dict.get "ExpenseDocuments" d = Some (PList (PDict dd :: rest)) ->
  Dict.get "SummaryFields" dd = Some (PList fs) ->
  forallb well_formed_field fs = false ->
  result (process_receipt_with_textract rt aws bucket key t)
    = inl AttributeError.
Proof.
  intros Han Hdocs Hsf Hbad.
  rewrite process_receipt_result, Han. cbn [err_bind].
  rewrite (extract_receipt_first_document d _ rest _ Hdocs).
  unfold process_expense_doc, process_summary_fields, py_contains, py_getitem,
    Dict.mem.
  rewrite Hsf. cbn [err_bind py_iter].
  rewrite (for_each_raises well_formed_field summary_field_step AttributeError);
    [reflexivity | | | exact Hbad].
  - intros x s0. apply summary_field_step_total.
  - intros x s0. apply summary_field_step_malformed.
Qed.

(** *** The order of the external calls *)

(** X5. The external calls of a run are, in order, the first [n] of:
    object check, analysis, store write, mail, for some [n] of at most
    four.  So no call is made twice and none before the one ahead of it;
    the status code is 200 exactly when all four calls were made, and
    500 exactly when fewer were. *)
Theorem calls_follow_the_pipeline (event context : pyval) (t : ticks) :
  let r := lambda_handler rt aws event context t in
  exists n resp,
    n <= 4 /\
    calls (events r) = firstn n pipeline_calls /\
    length (calls (events r)) = n /\
    result r = inr resp /\
    (statusCode resp = 200%Z <-> calls (events r) = pipeline_calls) /\
    (statusCode resp = 500%Z <-> n < 4).
Proof.
  intros r. subst r. run_pipeline.
  destruct (event_location rt event) as [e | [bucket key]]; step.
  { exists 0. eexists. repeat split; try intros H;
      first [reflexivity | lia | discriminate H]. }
  destruct (head_object aws bucket key) as [e |]; step.
  { exists 1. eexists. repeat split; try intros H;
      first [reflexivity | lia | discriminate H]. }
  destruct (analyze_expense aws bucket key) as [e | doc]; step.
  { exists 2. eexists. repeat split; try intros H;
      first [reflexivity | lia | discriminate H]. }
  destruct (extract_receipt doc _) as [e | rd]; step.
  { exists 2. eexists. repeat split; try intros H;
      first [reflexivity | lia | discriminate H]. }
  destruct (put_item aws _ _) as [e |]; step.
  { exists 3. eexists. repeat split; try intros H;
      first [reflexivity | lia | discriminate H]. }
  destruct (send_email aws _ _ _ _) as [e |]; step;
    exists 4; eexists; repeat split; try intros H;
    first [reflexivity | lia | discriminate H].
Qed.

(** X6. An event from which the bucket and the decoded key cannot be
    read (a missing key, an empty Records list, a key that is not a
    string) makes no external call at all, draws no UUID, reads no clock,
    and is answered with the 500 response of the exception. *)
Theorem malformed_event_makes_no_call
        (event context : pyval) (e : exn) (t : ticks) :
  event_location rt event = inl e ->
  let r := lambda_handler rt aws event context t in
  calls (events r) = [] /\
  after r = t /\
  result r = inr (failure_response rt e).
Proof.
  intros Hloc r. subst r. run_pipeline. rewrite Hloc. step.
  repeat split.
Qed.

(** X7. When the analysis call raises, the processing step raises the
    same exception without drawing a UUID or reading the clock; the run
    has made the object check and the analysis call only, and the handler
    answers with the 500 response of that exception. *)
Theorem analysis_failure_is_reraised
        (event context bucket : pyval) (key : string) (e : exn) (t : ticks) :
  event_location rt event = inr (bucket, key) ->
  head_object aws bucket key = None ->
  analyze_expense aws bucket key = inl e ->
  let p := process_receipt_with_textract rt aws bucket key t in
  let r := lambda_handler rt aws event context t in
  result p = inl e /\
  after p = t /\
  calls (events r) = [HeadCall; AnalysisCall] /\
  after r = t /\
  result r = inr (failure_response rt e).
Proof.
  intros Hloc Hhead Han p r. subst p r.
  split; [| split].
  - rewrite process_receipt_result, Han. reflexivity.
  - unfold process_receipt_with_textract, try_except, bind,
      textract_analyze_expense, print, emit, raise.
    step. rewrite Han. reflexivity.
  - run_pipeline. rewrite Hloc. step. rewrite Hhead. step. rewrite Han. step.
    repeat split.
Qed.

(** X8. When the mapper raises on the analyzer's response, the run has
    drawn its UUID and read the clock but makes no store write and sends
    no mail, and the handler answers with the 500 response of the
    mapper's exception. *)
Theorem unreadable_response_stores_nothing
        (event context bucket resp : pyval) (key : string) (e : exn)
        (t : ticks) :
  event_location rt event = inr (bucket, key) ->
  head_object aws bucket key = None ->
  analyze_expense aws bucket key = inr resp ->
  extract_receipt resp (initial_receipt rt bucket key t) = inl e ->
  let r := lambda_handler rt aws event context t in
  calls (events r) = [HeadCall; AnalysisCall] /\
  after r = processed t /\
  result r = inr (failure_response rt e).
Proof.
  intros Hloc Hhead Han Hex r. subst r. unfold initial_receipt in Hex.
  run_pipeline. rewrite Hloc. step. rewrite Hhead. step. rewrite Han. step.
  rewrite Hex. step. repeat split.
Qed.

(** X9. On a well-formed response, with the object present and the store
    accepting the write, the handler makes all four calls and returns the
    success response, whatever the response holds and whatever the mail
    call does. *)
Theorem well_formed_receipt_is_processed
        (event context bucket resp : pyval) (key : string) (t : ticks) :
  event_location rt event = inr (bucket, key) ->
  head_object aws bucket key = None ->
  analyze_expense aws bucket key = inr resp ->
  well_formed_response resp = true ->
  (forall table item, put_item aws table item = None) ->
  let r := lambda_handler rt aws event context t in
  calls (events r) = pipeline_calls /\
  result r = inr (success_response rt).
Proof.
  intros Hloc Hhead Han Hwf Hput r. subst r.
  destruct (extract_receipt_total resp (initial_receipt rt bucket key t) Hwf)
    as [rd Hex].
  unfold initial_receipt in Hex.
  run_pipeline. rewrite Hloc. step. rewrite Hhead. step. rewrite Han. step.
  rewrite Hex. step. rewrite Hput. step.
  destruct (send_email aws _ _ _ _) as [e |]; step; split; reflexivity.
Qed.

(** *** What the calls are given *)

Lemma dict_field_getitem (v x : pyval) (k : string) :
  dict_field k v = Some x -> py_getitem v k = inr x.
Proof.
  destruct v; cbn; try discriminate. intros ->. reflexivity.
Qed.

(** The handler reads the bucket the event names and decodes the key it
    names. *)
Lemma named_object_location (event bucket : pyval) (raw : string) :
  named_object event = Some (bucket, PStr raw) ->
  event_location rt event = inr (bucket, rt_unquote_plus rt raw).
Proof.
  unfold named_object. intros H.
  destruct (dict_field "Records" event)
    as [[| | | | | [| record rest] |] |] eqn:ER;
    cbn [list_elems] in H; try discriminate.
  destruct (dict_field "s3" record) as [s3 |] eqn:E3; [| discriminate].
  destruct (dict_field "bucket" s3) as [b |] eqn:EB; [| discriminate].
  destruct (dict_field "object" s3) as [o |] eqn:EO; [| discriminate].
  destruct (dict_field "name" b) as [n |] eqn:EN; [| discriminate].
  destruct (dict_field "key" o) as [k |] eqn:EK; [| discriminate].
  inversion H; subst.
  unfold event_location, event_bucket, event_key.
  rewrite (dict_field_getitem _ _ _ ER). cbn [err_bind py_getitem0].
  rewrite (dict_field_getitem _ _ _ E3). cbn [err_bind].
  rewrite (dict_field_getitem _ _ _ EB). cbn [err_bind].
  rewrite (dict_field_getitem _ _ _ EN). cbn [err_bind].
  rewrite (dict_field_getitem _ _ _ EO). cbn [err_bind].
  rewrite (dict_field_getitem _ _ _ EK). reflexivity.
Qed.

(** X10. For an event that names bucket [name] and key [raw]
    ([Records[0].s3.bucket.name] and [Records[0].s3.object.key]), the run
    checks the object [name], [unquote_plus(raw)]; every object check and
    analysis call of the run is on that bucket and that decoded key; a
    store write goes to the table the environment variable
    DYNAMODB_TABLE names, "Table_name" when it is unset, and its item
    refers to the same object, [s3://name/unquote_plus(raw)], whatever
    the response holds. *)
Theorem calls_use_the_event_location
        (event context : pyval) (name raw : string) (t : ticks) :
  named_object event = Some (PStr name, PStr raw) ->
  let key := rt_unquote_plus rt raw in
  let table := match environ aws "DYNAMODB_TABLE" with
               | Some v => v
               | None => "Table_name"
               end in
  let r := lambda_handler rt aws event context t in
  In (HeadObject (PStr name) key) (events r) /\
  (forall b k,
      In (HeadObject b k) (events r) \/ In (AnalyzeExpense b k) (events r) ->
      b = PStr name /\ k = key) /\
  (forall tb item,
      In (PutItem tb item) (events r) ->
      tb = table /\ db_s3_path item = "s3://" +++ name +++ "/" +++ key).
Proof.
  intros Hnamed key table r. subst key table r.
  apply named_object_location in Hnamed.
  run_pipeline. rewrite Hnamed. step.
  destruct (head_object aws _ _) as [e |]; step.
  { split; [right; left; reflexivity |].
    split; [intros b k [H | H] | intros tb it H]; in_trace H;
      inversion H; split; reflexivity. }
  destruct (analyze_expense aws _ _) as [e | doc]; step.
  { split; [right; left; reflexivity |].
    split; [intros b k [H | H] | intros tb it H]; in_trace H;
      inversion H; split; reflexivity. }
  destruct (extract_receipt doc _) as [e | rd] eqn:E; step.
  { split; [right; left; reflexivity |].
    split; [intros b k [H | H] | intros tb it H]; in_trace H;
      inversion H; split; reflexivity. }
  apply extract_receipt_s3_path in E. cbn [s3_path py_str] in E.
  destruct (put_item aws _ _) as [e |]; step.
  { split; [right; left; reflexivity |].
    split; [intros b k [H | H] | intros tb it H]; in_trace H;
      inversion H; subst; (split; [reflexivity |]);
      first [reflexivity | exact E]. }
  destruct (send_email aws _ _ _ _) as [e |]; step;
    (split; [right; left; reflexivity |];
     split; [intros b k [H | H] | intros tb it H]; in_trace H;
     inversion H; subst; (split; [reflexivity |]);
     first [reflexivity | exact E]).
Qed.



(** X12. The item list of the mail is the placeholder line when the
    record has no items, and otherwise the lines of the items one after
    the other, never the placeholder. *)
Theorem mail_lists_every_item (rd : receipt_data) :
  email_items_html rt rd =
    match items rd with
    | [] => "<li>No items detected</li>"
    | _ :: _ => String.concat "" (map (item_html rt) (items rd))
    end.
Proof.
  unfold email_items_html. rewrite fold_left_append. cbn [String.append].
  destruct (items rd) as [| item l]; [reflexivity |].
  cbn [map]. rewrite concat_cons. reflexivity.
Qed.

End PipelineCoverage.

(** *** An ITEM field without text, in the record *)

Lemma Forall2_In_left {A B} (R : A -> B -> Prop) (xs : list A) (ys : list B)
      (x : A) :
  Forall2 R xs ys -> In x xs -> exists y, In y ys /\ R x y.
Proof.
  intros H. induction H as [| a b xs ys Hab _ IH]; cbn.
  - contradiction.
  - intros [-> | Hin].
    + exists b. split; [left; reflexivity | exact Hab].
    + destruct (IH Hin) as (y & Hy & Hxy). exists y. split;
        [right; exact Hy | exact Hxy].
Qed.

(** C10. A line item of the response is kept as soon as one of its fields
    is tagged ITEM: when that field has no value-detection part, or one
    with no text or with the empty text, and no later field of the line
    item is tagged ITEM, the record the processing step returns holds
    the item built from that line item, its name the empty string.  The
    step does return a record when the response is well formed. *)
Theorem item_field_without_text_is_kept
        (rt : Runtime) (aws : Services) (bucket : pyval) (key : string)
        (resp : pyval) (t : ticks)
        (d fd td : pydict) (pre post : list pyval) :
  analyze_expense aws bucket key = inr resp ->
  In (PDict d) (input_line_items resp) ->
  Dict.get "LineItemExpenseFields" d = Some (PList (pre ++ PDict fd :: post)) ->
  Dict.get "Type" fd = Some (PDict td) ->
  Dict.get "Text" td = Some (PStr "ITEM") ->
  Dict.get "ValueDetection" fd = None \/
  (exists vd,
      Dict.get "ValueDetection" fd = Some (PDict vd) /\
      (Dict.get "Text" vd = None \/ Dict.get "Text" vd = Some (PStr ""))) ->
  existsb (tagged "ITEM") post = false ->
  let p := process_receipt_with_textract rt aws bucket key t in
  (well_formed_response resp = true -> exists rd, result p = inr rd) /\
  (forall rd,
      result p = inr rd ->
      exists item,
        In item (items rd) /\
        build_item (PDict d) = inr item /\
        Dict.get "name" item = Some (PStr "")).
Proof.
  intros Han Hin Hfields Hty Htext Hvalue Hpost p. subst p.
  rewrite process_receipt_result, Han. cbn [err_bind].
  split.
  - intros Hwf. apply extract_receipt_total, Hwf.
  - intros rd Hrd.
    destruct (extract_receipt_items _ _ _ Hrd) as (kept & B & Hitems & _).
    cbn in Hitems. subst kept.
    assert (Hmem : In (PDict d) (filter has_item_field (input_line_items resp))).
    { apply filter_In. split; [exact Hin |].
      unfold has_item_field, dict_field, list_elems. rewrite Hfields.
      rewrite existsb_app. cbn [existsb].
      assert (Ht : tagged "ITEM" (PDict fd) = true).
      { unfold tagged, field_tag, dict_field. rewrite Hty, Htext. reflexivity. }
      rewrite Ht. apply orb_true_iff. right. reflexivity. }
    destruct (Forall2_In_left _ _ _ _ B Hmem) as (item & Hitem & Hbuild).
    exists item. split; [exact Hitem |]. split; [exact Hbuild |].
    apply (build_item_empty_name d fd td pre post item
             Hfields Hty Htext Hvalue Hpost Hbuild).
Qed.

(** ** Concrete runs *)

(** The upload of [cafe.jpg] with the mail service down: status 200. *)
Lemma mail_failure_run :
  result (lambda_handler sample_runtime
            (sample_services true true false cafe_response)
            upload_event PNone start)
  = inr (success_response sample_runtime).
Proof.
  eapply (mail_failure_still_reports_success
            sample_runtime (sample_services true true false cafe_response)
            upload_event PNone (PStr "receipts") "cafe.jpg");
    reflexivity.
Defined.

(** The upload of a missing object: only the object check is called. *)
Lemma missing_object_run :
  let r := lambda_handler sample_runtime
             (sample_services false true true cafe_response)
             upload_event PNone start in
  Forall (fun ev => is_analysis_call ev = false /\
                    is_store_call ev = false /\
                    is_mail_call ev = false) (events r) /\
  In (HeadObject (PStr "receipts") "cafe.jpg") (events r) /\
  exists resp, result r = inr resp /\ statusCode resp = 500%Z.
Proof.
  apply (missing_object_aborts_with_500
           sample_runtime (sample_services false true true cafe_response)
           upload_event PNone (PStr "receipts") "cafe.jpg"
           (ClientError "Not Found") start);
    reflexivity.
Defined.

(** A response with no expense document yields the record of defaults. *)
Lemma blank_response_run :
  exists rd,
    result (process_receipt_with_textract sample_runtime
              (sample_services true true true blank_response)
              (PStr "receipts") "cafe.jpg" start) = inr rd /\
    date rd = PStr "2024-03-05" /\
    vendor rd = PStr "Unknown" /\
    total rd = PStr "0.00" /\
    items rd = [].
Proof.
  apply (no_expense_documents_gives_defaults
           sample_runtime (sample_services true true true blank_response)
           (PStr "receipts") "cafe.jpg" [("ExpenseDocuments", PList [])] start).
  - reflexivity.
  - right. reflexivity.
Defined.

(** Two line items, one without a name: one item in the record. *)
Lemma nameless_item_run :
  exists rd,
    result (process_receipt_with_textract sample_runtime
              (sample_services true true true nameless_item_response)
              (PStr "receipts") "tea.jpg" start) = inr rd /\
    length (input_line_items nameless_item_response) = 2 /\
    length (items rd) = 1 /\
    length (items rd) < length (input_line_items nameless_item_response).
Proof.
  eexists. split; [reflexivity |]. split; [reflexivity |].
  split; [reflexivity |].
  refine (proj2 (proj2 (proj2 (proj2
            (nameless_line_items_are_dropped
               sample_runtime
               (sample_services true true true nameless_item_response)
               (PStr "receipts") "tea.jpg" nameless_item_response _ start
               eq_refl eq_refl)))) _).
  exists (PDict [("LineItemExpenseFields", PList [expense_field "PRICE" "3.00"])]).
  split; [right; left; reflexivity | reflexivity].
Defined.

(** The receipt of Cafe X is stored with the strings of the response. *)
Lemma cafe_receipt_run :
  let r := lambda_handler sample_runtime
             (sample_services true true true cafe_response)
             upload_event PNone start in
  exists item,
    filter is_store_call (events r) = [PutItem "Table_name" item] /\
    db_vendor item = PStr "Cafe X" /\
    db_date item = PStr "2024-03-01" /\
    db_total item = PStr "12.50" /\
    db_items item = [[("name", PStr "Coffee");
                      ("price", PStr "4.00");
                      ("quantity", PStr "2")]].
Proof.
  apply (cafe_receipt_is_stored_verbatim
           sample_runtime (sample_services true true true cafe_response)
           upload_event PNone (PStr "receipts") "cafe.jpg" start);
    reflexivity.
Defined.

(** The upload of [cafe.jpg] with the store down: status 500, no mail. *)
Lemma store_failure_run :
  let r := lambda_handler sample_runtime
             (sample_services true false true cafe_response)
             upload_event PNone start in
  Forall (fun ev => is_mail_call ev = false) (events r) /\
  result r = inr (failure_response sample_runtime (ClientError "Unavailable")).
Proof.
  refine (let H := store_failure_aborts_without_email
                     sample_runtime
                     (sample_services true false true cafe_response)
                     upload_event PNone (PStr "receipts") "cafe.jpg" _
                     (ClientError "Unavailable") start
                     eq_refl eq_refl eq_refl eq_refl in
          conj (proj1 (proj2 H)) (proj1 (proj2 (proj2 H)))).
Defined.


(** An ITEM field without a value: the record holds the item, its name
    empty. *)
Lemma unnamed_line_item_run :
  exists rd item,
    result (process_receipt_with_textract sample_runtime
              (sample_services true true true unnamed_item_response)
              (PStr "receipts") "cafe.jpg" start) = inr rd /\
    In item (items rd) /\
    Dict.get "name" item = Some (PStr "").
Proof.
  destruct (item_field_without_text_is_kept
              sample_runtime
              (sample_services true true true unnamed_item_response)
              (PStr "receipts") "cafe.jpg" unnamed_item_response start
              [("LineItemExpenseFields",
                PList [PDict [("Type", text_of "ITEM")];
                       expense_field "PRICE" "1.00"])]
              [("Type", text_of "ITEM")]
              [("Text", PStr "ITEM")]
              []
              [expense_field "PRICE" "1.00"]
              eq_refl
              (or_introl eq_refl)
              eq_refl eq_refl eq_refl
              (or_introl eq_refl)
              eq_refl)
    as [Htotal Hkept].
  destruct (Htotal eq_refl) as [rd Hrd].
  destruct (Hkept rd Hrd) as (item & Hin & _ & Hname).
  exists rd, item. split; [exact Hrd |]. split; [exact Hin | exact Hname].
Defined.

(** ** Concrete runs of the further properties *)

(** A second expense document changes nothing. *)
Lemma second_document_run :
  extract_receipt two_document_response tea_receipt =
    extract_receipt
      (PDict [("ExpenseDocuments",
               PList [PDict [("SummaryFields",
                              PList [expense_field "TOTAL" "12.50"])]])])
      tea_receipt.
Proof.
  apply (only_first_document_is_read
           [("ExpenseDocuments",
             PList
               [PDict [("SummaryFields", PList [expense_field "TOTAL" "12.50"])];
                PDict [("SummaryFields", PList [expense_field "TOTAL" "99.00"])]])]
           [("ExpenseDocuments",
             PList
               [PDict [("SummaryFields", PList [expense_field "TOTAL" "12.50"])]])]
           (PDict [("SummaryFields", PList [expense_field "TOTAL" "12.50"])])
           [PDict [("SummaryFields", PList [expense_field "TOTAL" "99.00"])]]
           []
           tea_receipt);
    reflexivity.
Defined.

(** The item of a line item with a valueless ITEM and a PRICE field. *)
Lemma unnamed_item_entries_run :
  let item := [("name", PStr ""); ("price", PStr "1.00")] in
  Dict.get "name" item = Some (PStr "") /\
  Dict.get "price" item = Some (PStr "1.00") /\
  Dict.get "quantity" item = None /\
  (forall k, k <> "name" -> k <> "price" -> k <> "quantity" ->
             Dict.get k item = None).
Proof.
  exact (item_entries_are_the_last_tagged_texts
           unnamed_line_item
           [("name", PStr ""); ("price", PStr "1.00")]
           eq_refl).
Defined.

(** Two totals and no vendor: the last total, the default vendor. *)
Lemma two_totals_run :
  exists rd,
    result (process_receipt_with_textract sample_runtime
              (sample_services true true true two_totals_response)
              (PStr "receipts") "cafe.jpg" start) = inr rd /\
    total rd = PStr "9.50" /\
    vendor rd = PStr "Unknown".
Proof.
  eexists. split; [reflexivity |].
  destruct (summary_entries_are_the_last_tagged_texts
              sample_runtime
              (sample_services true true true two_totals_response)
              (PStr "receipts") "cafe.jpg"
              [("ExpenseDocuments",
                PList
                  [PDict
                     [("SummaryFields",
                       PList [expense_field "TOTAL" "9.00";
                              expense_field "SUBTOTAL" "8.00";
                              expense_field "TOTAL" "9.50"])]])]
              [("SummaryFields",
                PList [expense_field "TOTAL" "9.00";
                       expense_field "SUBTOTAL" "8.00";
                       expense_field "TOTAL" "9.50"])]
              []
              [expense_field "TOTAL" "9.00";
               expense_field "SUBTOTAL" "8.00";
               expense_field "TOTAL" "9.50"]
              _ start eq_refl eq_refl eq_refl eq_refl)
    as (Ht & Hv & _).
  split; [exact Ht | exact Hv].
Defined.

(** A summary field with a null Type: AttributeError. *)
Lemma null_type_run :
  result (process_receipt_with_textract sample_runtime
            (sample_services true true true null_type_response)
            (PStr "receipts") "cafe.jpg" start) = inl AttributeError.
Proof.
  apply (malformed_summary_field_raises
           sample_runtime
           (sample_services true true true null_type_response)
           (PStr "receipts") "cafe.jpg"
           [("ExpenseDocuments",
             PList
               [PDict
                  [("SummaryFields",
                    PList [expense_field "TOTAL" "9.00";
                           PDict [("Type", PNone);
                                  ("ValueDetection", text_of "Cafe X")]])]])]
           [("SummaryFields",
             PList [expense_field "TOTAL" "9.00";
                    PDict [("Type", PNone);
                           ("ValueDetection", text_of "Cafe X")]])]
           []
           [expense_field "TOTAL" "9.00";
            PDict [("Type", PNone); ("ValueDetection", text_of "Cafe X")]]
           start);
    reflexivity.
Defined.

(** An event without Records: no call, the 500 response of the KeyError. *)
Lemma empty_event_run :
  let r := lambda_handler sample_runtime
             (sample_services true true true cafe_response)
             empty_event PNone start in
  calls (events r) = [] /\
  after r = start /\
  result r = inr (failure_response sample_runtime (KeyError (PStr "Records"))).
Proof.
  apply (malformed_event_makes_no_call
           sample_runtime (sample_services true true true cafe_response)
           empty_event PNone (KeyError (PStr "Records")) start).
  reflexivity.
Defined.

(** The analysis call raising: two calls, no tick, status 500. *)
Lemma analysis_failure_run :
  let p := process_receipt_with_textract sample_runtime analysis_down
             (PStr "receipts") "cafe.jpg" start in
  let r := lambda_handler sample_runtime analysis_down
             upload_event PNone start in
  result p = inl (ClientError "Throttled") /\
  after p = start /\
  calls (events r) = [HeadCall; AnalysisCall] /\
  after r = start /\
  result r = inr (failure_response sample_runtime (ClientError "Throttled")).
Proof.
  apply (analysis_failure_is_reraised
           sample_runtime analysis_down upload_event PNone
           (PStr "receipts") "cafe.jpg" (ClientError "Throttled") start);
    reflexivity.
Defined.

(** A response the mapper cannot read: nothing stored, status 500. *)
Lemma unreadable_response_run :
  let r := lambda_handler sample_runtime
             (sample_services true true true null_type_response)
             upload_event PNone start in
  calls (events r) = [HeadCall; AnalysisCall] /\
  after r = processed start /\
  result r = inr (failure_response sample_runtime AttributeError).
Proof.
  apply (unreadable_response_stores_nothing
           sample_runtime
           (sample_services true true true null_type_response)
           upload_event PNone (PStr "receipts") null_type_response
           "cafe.jpg" AttributeError start);
    reflexivity.
Defined.

(** The receipt of Cafe X with the mail service down: four calls, 200. *)
Lemma well_formed_receipt_run :
  let r := lambda_handler sample_runtime
             (sample_services true true false cafe_response)
             upload_event PNone start in
  calls (events r) = pipeline_calls /\
  result r = inr (success_response sample_runtime).
Proof.
  apply (well_formed_receipt_is_processed
           sample_runtime (sample_services true true false cafe_response)
           upload_event PNone (PStr "receipts") cafe_response "cafe.jpg" start);
    reflexivity.
Defined.


(** An encoded key and a configured table: the calls are on the decoded
    key, the write goes to the configured table. *)
Lemma encoded_key_run :
  let r := lambda_handler decoding_runtime
             (configured_services cafe_response)
             encoded_key_event PNone start in
  In (HeadObject (PStr "receipts") "my receipt.jpg") (events r) /\
  (forall b k,
      In (HeadObject b k) (events r) \/ In (AnalyzeExpense b k) (events r) ->
      b = PStr "receipts" /\ k = "my receipt.jpg") /\
  (forall tb item,
      In (PutItem tb item) (events r) ->
      tb = "Receipts" /\ db_s3_path item = "s3://receipts/my receipt.jpg").
Proof.
  exact (calls_use_the_event_location
           decoding_runtime (configured_services cafe_response)
           encoded_key_event PNone "receipts" "my+receipt.jpg" start eq_refl).
Defined.
